(** * okr-gantt: workday-aware task scheduling

    A shallow embedding of [okr/gantt.py] ([build_gantt_df],
    [build_gantt_sequence]), of [okr/workdays.py] ([estimate_workdays],
    [get_holidays]) and of what [okr/plot.py] computes for the bars of the
    chart (labels, colours, widths), with the properties of the schedule
    they compute.

    Dates are proleptic Gregorian ordinals, as [datetime.date.toordinal]
    gives them: day 1 is 0001-01-01, a Monday.  Timestamps are taken at
    midnight, so that a date range at frequency "D" is a run of consecutive
    ordinals. *)

From stdpp Require Import base numbers list list_numbers gmap strings sorting.

Local Open Scope Z_scope.

(** ** Calendar *)

Module Calendar.

Definition is_leap (y : Z) : bool :=
  (y mod 4 =? 0) && (negb (y mod 100 =? 0) || (y mod 400 =? 0)).

Definition days_before_year (y : Z) : Z :=
  let p := y - 1 in p * 365 + p / 4 - p / 100 + p / 400.

Definition days_before_month (y m : Z) : Z :=
  nth (Z.to_nat (m - 1)) [0; 31; 59; 90; 120; 151; 181; 212; 243; 273; 304; 334] 0
  + (if (2 <? m) && is_leap y then 1 else 0).

(** [ymd y m d] is the ordinal of the date written y-m-d. *)
Definition ymd (y m d : Z) : Z :=
  days_before_year y + days_before_month y m + d.

(** [day.weekday()]: Monday is 0 and Sunday is 6. *)
Definition weekday (day : Z) : Z := (day + 6) mod 7.

(** [pd.date_range(start=..., periods=..., freq="D")].  A negative number
    of periods is read as an empty range; no statement below depends on
    that reading, since indexing an empty workday list raises as well. *)
Definition date_range (start periods : Z) : list Z := seqZ start periods.

(** [pd.date_range(start=..., end=..., freq="D")], both ends included. *)
Definition date_range_to (start end_ : Z) : list Z :=
  seqZ start (end_ - start + 1).

End Calendar.

Export Calendar.

(** ** Python results *)

Inductive PyError : Set := IndexError | KeyError.

Inductive result (A : Type) : Type :=
  | Ok (a : A)
  | Raise (e : PyError).

Arguments Ok {A} a.
Arguments Raise {A} e.

#[global] Instance result_bind : MBind result := λ A B f m,
  match m with
  | Ok a => f a
  | Raise e => Raise e
  end.

#[global] Instance PyError_eq_dec : EqDecision PyError.
Proof. solve_decision. Defined.

(** [l[i]] on a Python list: a negative index counts from the end, and an
    index outside the list raises [IndexError]. *)
Definition py_getitem {A} (l : list A) (i : Z) : result A :=
  let n := Z.of_nat (length l) in
  let j := if i <? 0 then i + n else i in
  if (j <? 0) || (n <=? j) then Raise IndexError
  else match l !! Z.to_nat j with
       | Some x => Ok x
       | None => Raise IndexError
       end.

(** ** Data model *)

Record TimelineTask : Set := mkTask {
  duration : Z;
  group : string;
  task : string
}.

(** One row of the returned frame, with its columns Task, Group, Start, End. *)
Record GanttRow : Set := mkRow {
  Task : string;
  Group : string;
  Start : Z;
  End_ : Z
}.

#[global] Instance GanttRow_eq_dec : EqDecision GanttRow.
Proof. solve_decision. Defined.

(** ** gantt.py *)

(** The test of the comprehension at lines 44-47 and of the scan at line 102:
    [(not exclude_weekends or day.weekday() < 5) and day not in non_workdays_set]. *)
Definition is_workday (exclude_weekends : bool) (non_workdays_set : gset Z)
    (day : Z) : Prop :=
  (exclude_weekends = false ∨ weekday day < 5) ∧ day ∉ non_workdays_set.

#[global] Instance is_workday_dec ew X day : Decision (is_workday ew X day).
Proof. unfold is_workday. apply _. Defined.

(** The loop of lines 49-60, with its two variables [rows] and [current_idx]. *)
Fixpoint place_tasks (workdays : list Z) (typed_timeline : list TimelineTask)
    (rows : list GanttRow) (current_idx : Z) : result (list GanttRow) :=
  match typed_timeline with
  | [] => Ok rows
  | t :: rest =>
      start ← py_getitem workdays current_idx;
      end_ ← py_getitem workdays (current_idx + duration t - 1);
      place_tasks workdays rest
        (rows ++ [mkRow (task t) (group t) start end_])
        (current_idx + duration t)
  end.

Definition max_days (typed_timeline : list TimelineTask) : Z :=
  foldr Z.add 0 (duration <$> typed_timeline).

(** The workday calendar of lines 41-47. *)
Definition workdays_from (typed_timeline : list TimelineTask) (init_date : Z)
    (non_workdays_set : gset Z) (exclude_weekends : bool) : list Z :=
  let calendar := date_range init_date (max_days typed_timeline * 3) in
  filter (is_workday exclude_weekends non_workdays_set) calendar.

Definition build_gantt_df (timeline : list TimelineTask) (init_date : Z)
    (non_workdays : list Z) (exclude_weekends : bool) : result (list GanttRow) :=
  let non_workdays_set : gset Z := list_to_set non_workdays in
  let workdays :=
    workdays_from timeline init_date non_workdays_set exclude_weekends in
  place_tasks workdays timeline [] 0.

(** [gantt_df["End"].max()]: a frame built from no rows has no column End. *)
Definition End_max (gantt_df : list GanttRow) : result Z :=
  match gantt_df with
  | [] => Raise KeyError
  | r :: rs => Ok (foldl Z.max (End_ r) (End_ <$> rs))
  end.

(** The scan of lines 101-104: the first qualifying day of the calendar
    replaces [current_date]; when there is none the loop ends and
    [current_date] keeps its value. *)
Fixpoint advance (exclude_weekends : bool) (non_workdays_set : gset Z)
    (calendar : list Z) (current_date : Z) : Z :=
  match calendar with
  | [] => current_date
  | day :: rest =>
      if decide (is_workday exclude_weekends non_workdays_set day) then day
      else advance exclude_weekends non_workdays_set rest current_date
  end.

(** The loop of lines 87-104, with its variables [current_date] and
    [gantt_dfs]. *)
Fixpoint chain (non_workdays : list Z) (exclude_weekends : bool)
    (timelines : list (list TimelineTask)) (current_date : Z)
    (gantt_dfs : list (list GanttRow)) : result (list (list GanttRow)) :=
  match timelines with
  | [] => Ok gantt_dfs
  | timeline :: rest =>
      gantt_df ← build_gantt_df timeline current_date non_workdays exclude_weekends;
      last_date ← End_max gantt_df;
      let calendar := date_range (last_date + 1) 30 in
      let non_workdays_set : gset Z := list_to_set non_workdays in
      chain non_workdays exclude_weekends rest
        (advance exclude_weekends non_workdays_set calendar current_date)
        (gantt_dfs ++ [gantt_df])
  end.

Definition build_gantt_sequence (timelines : list (list TimelineTask))
    (init_date : Z) (non_workdays : list Z) (exclude_weekends : bool)
    : result (list (list GanttRow)) :=
  chain non_workdays exclude_weekends timelines init_date [].

(** ** workdays.py *)

(** [non_workdays] is optional; [None] and an empty collection are both
    falsy at line 81. *)
Definition estimate_workdays (start end_ : Z) (non_workdays : option (list Z))
    : nat :=
  let all_days := date_range_to start end_ in
  let weekdays := filter (λ day, weekday day < 5) all_days in
  match non_workdays with
  | Some (h :: hs) =>
      let holidays_set : gset Z := list_to_set (h :: hs) in
      length (filter (λ day, day ∉ holidays_set) weekdays)
  | _ => length weekdays
  end.

(** ** Vocabulary of the properties *)

(** The dates an optional collection of non-working days excludes. *)
Definition excluded (non_workdays : option (list Z)) : gset Z :=
  match non_workdays with
  | Some l => list_to_set l
  | None => ∅
  end.

(** Number of qualifying workdays in the inclusive span [[start, end_]]. *)
Definition workdays_in_span (exclude_weekends : bool) (X : gset Z)
    (start end_ : Z) : nat :=
  length (filter (is_workday exclude_weekends X) (date_range_to start end_)).

(** [d'] is the first qualifying workday strictly after [d]. *)
Definition first_workday_after (exclude_weekends : bool) (X : gset Z)
    (d d' : Z) : Prop :=
  d < d' ∧ is_workday exclude_weekends X d' ∧
  ∀ e, d < e < d' → ¬ is_workday exclude_weekends X e.

Definition positive_durations (timeline : list TimelineTask) : Prop :=
  Forall (λ t, 0 < duration t) timeline.

(** The days the estimator counts: Monday to Friday, and not excluded. *)
Definition counted (non_workdays : option (list Z)) (day : Z) : Prop :=
  weekday day < 5 ∧ day ∉ excluded non_workdays.

#[global] Instance counted_dec non_workdays day : Decision (counted non_workdays day).
Proof. unfold counted. apply _. Defined.

(** Number of days of [[a, a + n)] that satisfy [P]. *)
Definition count_from (P : Z → Prop) `{!∀ d, Decision (P d)} (a n : Z) : nat :=
  length (filter P (seqZ a n)).

(** What the loop appends to [rows], as a relation between the cursor, the
    tasks still to place and the rows they give. *)
Inductive placed (workdays : list Z) : Z → list TimelineTask → list GanttRow → Prop :=
  | placed_nil current_idx : placed workdays current_idx [] []
  | placed_cons current_idx t rest start end_ out :
      py_getitem workdays current_idx = Ok start →
      py_getitem workdays (current_idx + duration t - 1) = Ok end_ →
      placed workdays (current_idx + duration t) rest out →
      placed workdays current_idx (t :: rest)
        (mkRow (task t) (group t) start end_ :: out).

(** What the loop appends to [gantt_dfs], as a relation between the cursor,
    the timelines still to schedule and the frames they give. *)
Inductive chained (non_workdays : list Z) (exclude_weekends : bool)
    : Z → list (list TimelineTask) → list (list GanttRow) → Prop :=
  | chained_nil current_date :
      chained non_workdays exclude_weekends current_date [] []
  | chained_cons current_date timeline rest gantt_df last_date out :
      build_gantt_df timeline current_date non_workdays exclude_weekends
        = Ok gantt_df →
      End_max gantt_df = Ok last_date →
      chained non_workdays exclude_weekends
        (advance exclude_weekends (list_to_set non_workdays)
           (date_range (last_date + 1) 30) current_date)
        rest out →
      chained non_workdays exclude_weekends current_date (timeline :: rest)
        (gantt_df :: out).

(** ** workdays.py: holidays of an interval *)

(** A calendar date with its fields, as [pd.to_datetime(...).date()]
    returns it. *)
Record date : Set := mkDate {
  year : Z;
  month : Z;
  day : Z
}.

Definition toordinal (d : date) : Z := ymd (year d) (month d) (day d).

(** The order of [sort_values("Date")] on the rows (Date, Holiday). *)
Definition by_date (a b : Z * string) : Prop := a.1 ≤ b.1.

#[global] Instance by_date_dec : RelDecision by_date.
Proof. intros a b. unfold by_date. apply _. Defined.

(** [get_holidays].  The holidays package is a parameter: it maps a country,
    a subdivision and a list of years to a dict from dates to names.  The
    returned frame is the list of its rows (Date, Holiday). *)
Definition get_holidays
    (country_holidays : string → option string → list Z → gmap Z string)
    (country_code : string) (start_date end_date : date)
    (subdiv : option string) : list (Z * string) :=
  let start := toordinal start_date in
  let end_ := toordinal end_date in
  let years := seqZ (year start_date) (year end_date + 1 - year start_date) in
  let holiday_list := country_holidays country_code subdiv years in
  let holidays_in_range : gmap Z string :=
    filter (λ kv, start ≤ kv.1 ≤ end_) holiday_list in
  merge_sort by_date (map_to_list holidays_in_range).

(** ** plot.py *)

(** A Python string as the sequence of its code points. *)
Definition pystr : Set := list Z.

Definition codes (s : string) : pystr :=
  (λ c, Z.of_nat (Ascii.nat_of_ascii c)) <$> String.list_ascii_of_string s.

(** [l[:stop]] on a Python sequence: a negative stop counts from the end,
    and the slice is cut to the sequence. *)
Definition py_slice_to {A} (l : list A) (stop : Z) : list A :=
  let n := Z.of_nat (length l) in
  let stop := if stop <? 0 then Z.max 0 (stop + n) else Z.min stop n in
  take (Z.to_nat stop) l.

(** The label of a bar, lines 150-157; the ellipsis is U+2026. *)
Definition task_label (group task : pystr) (max_label_length : option Z)
    (include_group_name : bool) : pystr :=
  let label_core := task in
  let label :=
    if include_group_name then codes "[" ++ group ++ codes "] " ++ label_core
    else label_core in
  match max_label_length with
  | Some m =>
      if m <? Z.of_nat (length label) then py_slice_to label (m - 1) ++ [8230]
      else label
  | None => label
  end.

(** [day.strftime('%A')], in the C locale. *)
Definition day_name (day : Z) : pystr :=
  codes (nth (Z.to_nat (weekday day))
           ["Monday"; "Tuesday"; "Wednesday"; "Thursday"; "Friday"; "Saturday";
            "Sunday"]%string ""%string).

(** [format_weekday], lines 182-184. *)
Definition format_weekday (weekday_label_length : Z) (day : Z) : pystr :=
  let name := day_name day in
  if weekday_label_length =? -1 then name
  else py_slice_to name weekday_label_length.

(** [df["Group"].unique()]: the values in order of first appearance. *)
Fixpoint unique_from (seen : list string) (l : list string) : list string :=
  match l with
  | [] => []
  | g :: rest =>
      if decide (g ∈ seen) then unique_from seen rest
      else g :: unique_from (g :: seen) rest
  end.

Definition unique (l : list string) : list string := unique_from [] l.

(** The colours of the groups, lines 92-94: the given map unless it is
    [None] or empty, else colour [i % 10] of the palette for the [i]-th
    group. *)
Definition group_colors {color : Type} (cmap : Z → color)
    (color_map : option (gmap string color)) (df : list GanttRow)
    : gmap string color :=
  let groups := unique (Group <$> df) in
  let default :=
    foldl (λ m ig, <[ig.2 := cmap (Z.of_nat ig.1 mod 10)]> m) ∅
      (imap pair groups) in
  match color_map with
  | Some m => if decide (m = ∅) then default else m
  | None => default
  end.

(** The colour each bar is drawn with, line 138 in the loop of line 134: a
    group without a colour raises [KeyError]. *)
Fixpoint bar_colors_loop {color : Type} (group_colors : gmap string color)
    (rows : list GanttRow) : result (list color) :=
  match rows with
  | [] => Ok []
  | row :: rest =>
      match group_colors !! Group row with
      | Some c => cs ← bar_colors_loop group_colors rest; Ok (c :: cs)
      | None => Raise KeyError
      end
  end.

Definition bar_colors {color : Type} (cmap : Z → color)
    (color_map : option (gmap string color)) (df : list GanttRow)
    : result (list color) :=
  bar_colors_loop (group_colors cmap color_map df) df.

(** The width of a bar, line 137: [(end - start).days + 1]. *)
Definition bar_width (row : GanttRow) : Z := (End_ row - Start row) + 1.

(** The days of a bar that get the weekend overlay, lines 144-148. *)
Definition weekend_slices (row : GanttRow) : list Z :=
  let task_days := date_range_to (Start row) (End_ row) in
  filter (λ day, 5 ≤ weekday day) task_days.

(** ** Scenarios *)

Example monday_2025_01_06 : weekday (ymd 2025 1 6) = 0.
Proof. reflexivity. Qed.

Example scenario_no_exclusion :
  build_gantt_df [mkTask 2 "A" "x"; mkTask 3 "A" "y"] (ymd 2025 1 6) [] true
  = Ok [mkRow "x" "A" (ymd 2025 1 6) (ymd 2025 1 7);
        mkRow "y" "A" (ymd 2025 1 8) (ymd 2025 1 10)].
Proof. vm_compute. reflexivity. Qed.

Example scenario_chain_friday :
  build_gantt_sequence [[mkTask 1 "A" "x"]; [mkTask 1 "A" "y"]]
    (ymd 2025 1 10) [] true
  = Ok [[mkRow "x" "A" (ymd 2025 1 10) (ymd 2025 1 10)];
        [mkRow "y" "A" (ymd 2025 1 13) (ymd 2025 1 13)]].
Proof. vm_compute. reflexivity. Qed.

(** ** Filtering a run of consecutive days *)

Section FilteredRun.

Context (P : Z → Prop) `{!∀ d, Decision (P d)}.

Lemma count_from_nil a n : n ≤ 0 → count_from P a n = 0%nat.
Proof. intros Hn. unfold count_from. by rewrite seqZ_nil. Qed.

Lemma count_from_split a n m :
  0 ≤ n → 0 ≤ m →
  count_from P a (n + m) = (count_from P a n + count_from P (a + n) m)%nat.
Proof.
  intros Hn Hm. unfold count_from.
  by rewrite seqZ_app, filter_app, length_app.
Qed.

Lemma count_from_one a :
  count_from P a 1 = if decide (P a) then 1%nat else 0%nat.
Proof.
  unfold count_from. change (seqZ a 1) with [a].
  rewrite filter_cons. by destruct (decide (P a)).
Qed.

Lemma count_from_mono a n m : n ≤ m → (count_from P a n ≤ count_from P a m)%nat.
Proof.
  intros Hnm. destruct (decide (n ≤ 0)) as [Hn|Hn].
  - rewrite (count_from_nil a n) by done. lia.
  - replace m with (n + (m - n)) by lia.
    rewrite count_from_split by lia. lia.
Qed.

(** The element at position [i] of the filtered run is a day of the run
    that satisfies [P], and exactly [i] days before it do. *)
Lemma filtered_run_lookup (n : nat) : ∀ a (i : nat) x,
  filter P (seqZ a (Z.of_nat n)) !! i = Some x →
  a ≤ x < a + Z.of_nat n ∧ P x ∧ count_from P a (x - a) = i.
Proof.
  induction n as [|n IH]; intros a i x Hx.
  - done.
  - rewrite seqZ_cons in Hx by lia.
    replace (Z.pred (Z.of_nat (S n))) with (Z.of_nat n) in Hx by lia.
    assert (Hstep : ∀ y, a + 1 ≤ y →
      count_from P a (y - a)
      = ((if decide (P a) then 1 else 0) + count_from P (a + 1) (y - (a + 1)))%nat).
    { intros y Hy. replace (y - a) with (1 + (y - (a + 1))) by lia.
      rewrite count_from_split by lia. by rewrite count_from_one. }
    rewrite filter_cons in Hx. destruct (decide (P a)) as [Ha|Ha].
    + destruct i as [|i]; simpl in Hx.
      * inversion Hx; subst x. split; [lia|]. split; [done|].
        apply count_from_nil. lia.
      * apply IH in Hx as (Hr & HP & Hc). split; [lia|]. split; [done|].
        rewrite Hstep by lia. unfold Z.succ in Hc. rewrite Hc. done.
    + apply IH in Hx as (Hr & HP & Hc). split; [lia|]. split; [done|].
      rewrite Hstep by lia. unfold Z.succ in Hc. rewrite Hc. done.
Qed.

Lemma filtered_run_lookup_Z a n (i : nat) x :
  filter P (seqZ a n) !! i = Some x →
  a ≤ x < a + n ∧ P x ∧ count_from P a (x - a) = i.
Proof.
  intros Hx. destruct (decide (0 ≤ n)) as [Hn|Hn].
  - rewrite <- (Z2Nat.id n) in Hx by done.
    apply filtered_run_lookup in Hx. rewrite Z2Nat.id in Hx by done. done.
  - rewrite seqZ_nil in Hx by lia. done.
Qed.

(** Up to and including the element at position [i] there are [i + 1]
    days that satisfy [P]. *)
Lemma filtered_run_count_incl a n (i : nat) x :
  filter P (seqZ a n) !! i = Some x → count_from P a (x + 1 - a) = S i.
Proof.
  intros Hx. apply filtered_run_lookup_Z in Hx as (Hr & HP & Hc).
  replace (x + 1 - a) with ((x - a) + 1) by lia.
  rewrite count_from_split by lia. rewrite Hc, count_from_one.
  replace (a + (x - a)) with x by lia.
  destruct (decide (P x)); [lia|done].
Qed.

(** The filtered run is strictly increasing. *)
Lemma filtered_run_lt a n (i j : nat) x y :
  filter P (seqZ a n) !! i = Some x →
  filter P (seqZ a n) !! j = Some y →
  (i < j)%nat → x < y.
Proof.
  intros Hx Hy Hij.
  pose proof (filtered_run_count_incl _ _ _ _ Hy) as Hcy.
  pose proof (filtered_run_count_incl _ _ _ _ Hx) as Hcx.
  destruct (decide (x < y)) as [|Hge]; [done|].
  pose proof (count_from_mono a (y + 1 - a) (x + 1 - a)) as Hm. lia.
Qed.

(** Between positions [i] and [j] of the filtered run, both included, lie
    exactly [j - i + 1] days that satisfy [P]. *)
Lemma filtered_run_span a n (i j : nat) x y :
  filter P (seqZ a n) !! i = Some x →
  filter P (seqZ a n) !! j = Some y →
  (i ≤ j)%nat →
  count_from P x (y - x + 1) = (j - i + 1)%nat.
Proof.
  intros Hx Hy Hij.
  assert (x ≤ y) as Hxy.
  { destruct (decide (i = j)) as [->|Hne].
    - rewrite Hx in Hy. inversion Hy. lia.
    - pose proof (filtered_run_lt _ _ _ _ _ _ Hx Hy). lia. }
  pose proof (filtered_run_count_incl _ _ _ _ Hy) as Hcy.
  apply filtered_run_lookup_Z in Hx as (Hr & _ & Hcx).
  replace (y + 1 - a) with ((x - a) + (y - x + 1)) in Hcy by lia.
  rewrite count_from_split in Hcy by lia.
  replace (a + (x - a)) with x in Hcy by lia. lia.
Qed.

(** No day strictly between two neighbours of the filtered run satisfies
    [P]. *)
Lemma filtered_run_gap a n (i : nat) x y e :
  filter P (seqZ a n) !! i = Some x →
  filter P (seqZ a n) !! S i = Some y →
  x < e < y → ¬ P e.
Proof.
  intros Hx Hy He HP.
  pose proof (filtered_run_count_incl _ _ _ _ Hx) as Hcx.
  apply filtered_run_lookup_Z in Hx as (Hrx & _ & _).
  apply filtered_run_lookup_Z in Hy as (_ & _ & Hcy).
  replace (y - a) with ((x + 1 - a) + ((e - (x + 1)) + (1 + (y - (e + 1))))) in Hcy by lia.
  rewrite !count_from_split in Hcy by lia.
  replace (a + (x + 1 - a) + (e - (x + 1))) with e in Hcy by lia.
  rewrite count_from_one in Hcy.
  destruct (decide (P e)); [lia|done].
Qed.

(** The first element of the filtered run is the first day at or after
    the start that satisfies [P]. *)
Lemma filtered_run_head a n x :
  filter P (seqZ a n) !! 0%nat = Some x → P a → x = a.
Proof.
  intros Hx Ha. apply filtered_run_lookup_Z in Hx as (Hr & _ & Hc).
  destruct (decide (x = a)) as [|Hne]; [done|].
  pose proof (count_from_mono a 1 (x - a)) as Hm.
  rewrite count_from_one in Hm. destruct (decide (P a)); [lia|done].
Qed.

End FilteredRun.

(** ** The placement loop *)

Lemma py_getitem_nonneg {A} (l : list A) (i : Z) (x : A) :
  0 ≤ i → py_getitem l i = Ok x ↔ l !! Z.to_nat i = Some x.
Proof.
  intros Hi. unfold py_getitem.
  destruct (Z.ltb_spec i 0) as [|_]; [lia|].
  destruct (Z.ltb_spec i 0) as [|_]; [lia|]. simpl.
  destruct (Z.leb_spec (Z.of_nat (length l)) i) as [Hge|Hlt].
  - split; [done|]. intros Hl. apply lookup_lt_Some in Hl. lia.
  - destruct (l !! Z.to_nat i) as [y|]; [|done].
    split; intros Heq; inversion Heq; done.
Qed.

Lemma py_getitem_in_range {A} (l : list A) (i : Z) :
  0 ≤ i < Z.of_nat (length l) → ∃ x, py_getitem l i = Ok x.
Proof.
  intros Hi. destruct (lookup_lt_is_Some_2 l (Z.to_nat i)) as [x Hx]; [lia|].
  exists x. apply py_getitem_nonneg; [lia|done].
Qed.

Lemma py_getitem_error {A} (l : list A) (i : Z) (e : PyError) :
  py_getitem l i = Raise e → e = IndexError.
Proof.
  unfold py_getitem.
  destruct ((_ <? 0) || _); [congruence|].
  destruct (l !! _); congruence.
Qed.

Lemma place_tasks_placed workdays tl : ∀ rows current_idx out,
  place_tasks workdays tl rows current_idx = Ok out ↔
  ∃ out', out = rows ++ out' ∧ placed workdays current_idx tl out'.
Proof.
  induction tl as [|t rest IH]; intros rows idx out; simpl.
  - split.
    + intros Heq. inversion Heq; subst. exists []. rewrite app_nil_r.
      split; [done|constructor].
    + intros (out' & -> & Hp). inversion Hp; subst. by rewrite app_nil_r.
  - unfold mbind, result_bind.
    destruct (py_getitem workdays idx) as [s|e] eqn:Hs.
    + destruct (py_getitem workdays (idx + duration t - 1)) as [e|e'] eqn:He.
      * rewrite IH. split.
        -- intros (out' & -> & Hp). eexists. split; [|by econstructor].
           by rewrite <- app_assoc.
        -- intros (out' & -> & Hp). inversion Hp; subst.
           assert (start = s) as -> by congruence.
           assert (end_ = e) as -> by congruence.
           eexists. split; [|done]. by rewrite <- app_assoc.
      * split; [done|]. intros (out' & _ & Hp). inversion Hp; congruence.
    + split; [done|]. intros (out' & _ & Hp). inversion Hp; congruence.
Qed.

Lemma place_tasks_error workdays tl : ∀ rows current_idx e,
  place_tasks workdays tl rows current_idx = Raise e → e = IndexError.
Proof.
  induction tl as [|t rest IH]; intros rows idx e; simpl; [done|].
  unfold mbind, result_bind.
  destruct (py_getitem workdays idx) as [s|e1] eqn:Hs.
  - destruct (py_getitem workdays (idx + duration t - 1)) as [e2|e2] eqn:He.
    + apply IH.
    + intros [= <-]. by eapply py_getitem_error.
  - intros [= <-]. by eapply py_getitem_error.
Qed.

Lemma build_gantt_df_placed timeline init_date non_workdays exclude_weekends out :
  build_gantt_df timeline init_date non_workdays exclude_weekends = Ok out ↔
  placed (workdays_from timeline init_date (list_to_set non_workdays) exclude_weekends)
    0 timeline out.
Proof.
  unfold build_gantt_df. rewrite place_tasks_placed. simpl. split.
  - by intros (out' & -> & Hp).
  - intros Hp. by exists out.
Qed.

(** One row per task, carrying the task's description and group. *)
Lemma placed_rows workdays current_idx tl out :
  placed workdays current_idx tl out →
  Forall2 (λ t r, Task r = task t ∧ Group r = group t) tl out.
Proof. induction 1; constructor; auto. Qed.

Lemma max_days_cons t rest : max_days (t :: rest) = duration t + max_days rest.
Proof. done. Qed.

Lemma max_days_nonneg tl : positive_durations tl → 0 ≤ max_days tl.
Proof.
  induction 1 as [|t rest Ht _ IH]; [done|]. rewrite max_days_cons. lia.
Qed.

(** With positive durations, the loop goes through when the workday list
    holds the cursor plus the total duration. *)
Lemma placed_exists workdays tl : ∀ current_idx,
  positive_durations tl → 0 ≤ current_idx →
  current_idx + max_days tl ≤ Z.of_nat (length workdays) →
  ∃ out, placed workdays current_idx tl out.
Proof.
  induction tl as [|t rest IH]; intros idx Hpos Hidx Hfit.
  - exists []. constructor.
  - inversion Hpos as [|? ? Ht Hrest]; subst. rewrite max_days_cons in Hfit.
    pose proof (max_days_nonneg _ Hrest) as Hnn.
    destruct (py_getitem_in_range workdays idx) as [s Hs]; [lia|].
    destruct (py_getitem_in_range workdays (idx + duration t - 1)) as [e He]; [lia|].
    destruct (IH (idx + duration t)) as [out Hout]; [done|lia|lia|].
    eexists. by econstructor.
Qed.

(** Conversely, a loop that went through used no more than the workday list
    holds. *)
Lemma placed_fits workdays current_idx tl out :
  placed workdays current_idx tl out →
  positive_durations tl → 0 ≤ current_idx → tl ≠ [] →
  current_idx + max_days tl ≤ Z.of_nat (length workdays).
Proof.
  induction 1 as [|idx t rest s e out Hs He Hp IH]; intros Hpos Hidx Hne; [done|].
  inversion Hpos as [|? ? Ht Hrest]; subst. rewrite max_days_cons.
  destruct rest as [|t' rest].
  - apply py_getitem_nonneg in He; [|lia]. apply lookup_lt_Some in He.
    change (max_days []) with 0. lia.
  - specialize (IH Hrest). rewrite Z.add_assoc. apply IH; [lia|done].
Qed.

(** Where the rows of a loop with positive durations sit in the workday
    list: row [n] starts at some position [i] and ends [duration - 1]
    positions later, and the next row starts right after. *)
Lemma placed_positions workdays current_idx tl out :
  placed workdays current_idx tl out →
  positive_durations tl → 0 ≤ current_idx →
  ∀ (n : nat) t r, tl !! n = Some t → out !! n = Some r →
  ∃ i j : nat, (i ≤ j)%nat ∧ Z.of_nat j = Z.of_nat i + duration t - 1 ∧
    workdays !! i = Some (Start r) ∧ workdays !! j = Some (End_ r) ∧
    ∀ r', out !! S n = Some r' → workdays !! S j = Some (Start r').
Proof.
  induction 1 as [|idx t0 rest s e out Hs He Hp IH]; intros Hpos Hidx n t r Ht Hr;
    [done|].
  inversion Hpos as [|? ? Ht0 Hrest]; subst.
  destruct n as [|n]; simpl in Ht, Hr.
  - inversion Ht; inversion Hr; subst; simpl.
    apply py_getitem_nonneg in Hs; [|lia].
    apply py_getitem_nonneg in He; [|lia].
    exists (Z.to_nat idx), (Z.to_nat (idx + duration t - 1)).
    split; [lia|]. split; [lia|]. split; [done|]. split; [done|].
    intros r' Hr'. inversion Hp as [|? ? ? s' e' ? Hs' He' Hp']; subst; [done|].
    simpl in Hr'. inversion Hr'; subst; simpl.
    apply py_getitem_nonneg in Hs'; [|lia].
    replace (S (Z.to_nat (idx + duration t - 1))) with (Z.to_nat (idx + duration t)) by lia.
    done.
  - apply (IH Hrest ltac:(lia) n t r Ht Hr).
Qed.

(** ** The chaining loop *)

(** When the scanned calendar holds a qualifying day, the scan stops at the
    first one. *)
Lemma advance_first exclude_weekends X (n : nat) : ∀ a current_date,
  (∃ d, a ≤ d < a + Z.of_nat n ∧ is_workday exclude_weekends X d) →
  let day := advance exclude_weekends X (seqZ a (Z.of_nat n)) current_date in
  a ≤ day < a + Z.of_nat n ∧ is_workday exclude_weekends X day ∧
  ∀ e, a ≤ e < day → ¬ is_workday exclude_weekends X e.
Proof.
  induction n as [|n IH]; intros a cur (d & Hd & Hw); simpl; [lia|].
  rewrite seqZ_cons by lia.
  replace (Z.pred (Z.of_nat (S n))) with (Z.of_nat n) by lia. simpl.
  destruct (decide (is_workday exclude_weekends X a)) as [Ha|Ha].
  - split; [lia|]. split; [done|]. intros e He. lia.
  - destruct (IH (Z.succ a) cur) as (Hr & Hday & Hfirst).
    { exists d. split; [|done]. destruct (decide (d = a)) as [->|]; [done|lia]. }
    split; [lia|]. split; [done|]. intros e He.
    destruct (decide (e = a)) as [->|Hne]; [done|]. apply Hfirst. lia.
Qed.

(** When it holds none, the cursor keeps its value. *)
Lemma advance_stale exclude_weekends X calendar current_date :
  Forall (λ d, ¬ is_workday exclude_weekends X d) calendar →
  advance exclude_weekends X calendar current_date = current_date.
Proof.
  induction 1 as [|d rest Hd _ IH]; simpl; [done|].
  by destruct (decide (is_workday exclude_weekends X d)).
Qed.

Lemma chain_chained non_workdays exclude_weekends timelines :
  ∀ current_date gantt_dfs out,
  chain non_workdays exclude_weekends timelines current_date gantt_dfs = Ok out ↔
  ∃ out', out = gantt_dfs ++ out' ∧
    chained non_workdays exclude_weekends current_date timelines out'.
Proof.
  induction timelines as [|tl rest IH]; intros cur dfs out; simpl.
  - split.
    + intros [= <-]. exists []. rewrite app_nil_r. split; [done|constructor].
    + intros (out' & -> & Hc). inversion Hc; subst. by rewrite app_nil_r.
  - unfold mbind, result_bind.
    destruct (build_gantt_df tl cur non_workdays exclude_weekends) as [df|e] eqn:Hdf.
    + destruct (End_max df) as [last|e] eqn:Hlast.
      * rewrite IH. split.
        -- intros (out' & -> & Hc). eexists. split; [|by econstructor].
           by rewrite <- app_assoc.
        -- intros (out' & -> & Hc). inversion Hc; subst.
           assert (gantt_df = df) as -> by congruence.
           assert (last_date = last) as -> by congruence.
           eexists. split; [|done]. by rewrite <- app_assoc.
      * split; [done|]. intros (out' & _ & Hc). inversion Hc; congruence.
    + split; [done|]. intros (out' & _ & Hc). inversion Hc; congruence.
Qed.


(** The first row of a frame built from a qualifying day starts on it. *)
Lemma build_gantt_df_first_start timeline init_date non_workdays exclude_weekends
    gantt_df :
  build_gantt_df timeline init_date non_workdays exclude_weekends = Ok gantt_df →
  gantt_df ≠ [] →
  is_workday exclude_weekends (list_to_set non_workdays) init_date →
  ∃ r, gantt_df !! 0%nat = Some r ∧ Start r = init_date.
Proof.
  intros Hdf Hne Hinit. apply build_gantt_df_placed in Hdf.
  inversion Hdf as [|? t rest s e out Hs He _]; subst; [done|].
  eexists. split; [done|]. simpl.
  apply py_getitem_nonneg in Hs; [|done]. unfold workdays_from, date_range in Hs.
  by eapply filtered_run_head.
Qed.

(** [End_max] is the largest End of the frame. *)
Lemma foldl_max_spec (l : list Z) : ∀ m,
  (foldl Z.max m l = m ∨ foldl Z.max m l ∈ l) ∧
  m ≤ foldl Z.max m l ∧ Forall (λ x, x ≤ foldl Z.max m l) l.
Proof.
  induction l as [|x l IH]; intros m; simpl.
  - split; [by left|]. split; [lia|constructor].
  - destruct (IH (Z.max m x)) as (Hin & Hle & Hall). split; [|split].
    + destruct Hin as [Heq|Hin]; [|right; by constructor].
      rewrite Heq. destruct (Z.max_spec m x) as [[_ ->]|[_ ->]];
        [right; constructor|by left].
    + lia.
    + constructor; [lia|done].
Qed.

Lemma End_max_spec gantt_df last_date :
  End_max gantt_df = Ok last_date →
  (∃ r, r ∈ gantt_df ∧ End_ r = last_date) ∧
  ∀ r, r ∈ gantt_df → End_ r ≤ last_date.
Proof.
  destruct gantt_df as [|r0 rs]; simpl; [done|]. intros [= <-].
  destruct (foldl_max_spec (End_ <$> rs) (End_ r0)) as (Hin & Hle & Hall).
  split.
  - destruct Hin as [->|Hin].
    + exists r0. split; [constructor|done].
    + apply list_elem_of_fmap in Hin as (r & Hr & Hrin).
      exists r. split; [by constructor|done].
  - intros r Hr. apply elem_of_cons in Hr as [->|Hr]; [done|].
    rewrite Forall_forall in Hall. apply Hall. apply list_elem_of_fmap. eauto.
Qed.

(** ** Properties of the single-timeline scheduler *)

Section SingleTimeline.

Variables (timeline : list TimelineTask) (init_date : Z)
  (non_workdays : list Z) (exclude_weekends : bool).

Let X : gset Z := list_to_set non_workdays.
Let workdays := workdays_from timeline init_date X exclude_weekends.

(** With positive durations and enough workdays the scheduler returns,
    and its rows sit in the workday list as [placed_positions] says. *)
Lemma build_gantt_df_returns :
  positive_durations timeline →
  max_days timeline ≤ Z.of_nat (length workdays) →
  ∃ rows,
    build_gantt_df timeline init_date non_workdays exclude_weekends = Ok rows ∧
    placed workdays 0 timeline rows.
Proof.
  intros Hpos Hfit.
  destruct (placed_exists workdays timeline 0) as [rows Hrows]; [done|lia|lia|].
  exists rows. split; [|done]. by apply build_gantt_df_placed.
Qed.

End SingleTimeline.

(** C1. A non-empty timeline with positive durations whose workday sequence
    is long enough is scheduled with one row per task, and for every task
    the inclusive span [Start, End] of its row holds exactly as many
    qualifying workdays (days that pass the weekend rule and are not
    excluded) as the task's duration. *)
Theorem build_gantt_df_span_duration timeline init_date non_workdays exclude_weekends :
  timeline ≠ [] →
  positive_durations timeline →
  max_days timeline ≤ Z.of_nat (length
    (workdays_from timeline init_date (list_to_set non_workdays) exclude_weekends)) →
  ∃ rows,
    build_gantt_df timeline init_date non_workdays exclude_weekends = Ok rows ∧
    length rows = length timeline ∧
    ∀ (n : nat) t, timeline !! n = Some t →
      ∃ r, rows !! n = Some r ∧ Task r = task t ∧ Group r = group t ∧
        Z.of_nat (workdays_in_span exclude_weekends (list_to_set non_workdays)
                    (Start r) (End_ r)) = duration t.
Proof.
  intros _ Hpos Hfit.
  destruct (build_gantt_df_returns _ _ _ _ Hpos Hfit) as (rows & Hrows & Hp).
  exists rows. split; [done|].
  pose proof (placed_rows _ _ _ _ Hp) as Hall.
  split; [symmetry; by eapply Forall2_length|].
  intros n t Ht.
  destruct (Forall2_lookup_l _ _ _ _ _ Hall Ht) as (r & Hr & Htask & Hgroup).
  exists r. split; [done|]. split; [done|]. split; [done|].
  destruct (placed_positions _ _ _ _ Hp Hpos ltac:(lia) n t r Ht Hr)
    as (i & j & Hij & Hj & Hi & Hj' & _).
  unfold workdays_from, date_range in Hi, Hj'.
  unfold workdays_in_span, date_range_to.
  pose proof (filtered_run_span _ _ _ _ _ _ _ Hi Hj' Hij) as Hspan.
  unfold count_from in Hspan. rewrite Hspan. lia.
Qed.

Lemma build_gantt_df_span_duration_witness :
  ∃ rows,
    build_gantt_df [mkTask 2 "A" "x"; mkTask 3 "A" "y"] (ymd 2025 1 6)
      [ymd 2025 1 8] true = Ok rows ∧
    length rows = length [mkTask 2 "A" "x"; mkTask 3 "A" "y"] ∧
    ∀ (n : nat) t, [mkTask 2 "A" "x"; mkTask 3 "A" "y"] !! n = Some t →
      ∃ r, rows !! n = Some r ∧ Task r = task t ∧ Group r = group t ∧
        Z.of_nat (workdays_in_span true (list_to_set [ymd 2025 1 8])
                    (Start r) (End_ r)) = duration t.
Proof.
  apply build_gantt_df_span_duration.
  - discriminate.
  - repeat constructor.
  - vm_compute. discriminate.
Defined.

(** C2. A non-empty timeline with positive durations whose workday sequence
    is not exhausted gets exactly one row per task, in the order of the
    tasks: row [i] carries the description and the group of task [i]. *)
Theorem build_gantt_df_one_row_per_task timeline init_date non_workdays exclude_weekends :
  timeline ≠ [] →
  positive_durations timeline →
  max_days timeline ≤ Z.of_nat (length
    (workdays_from timeline init_date (list_to_set non_workdays) exclude_weekends)) →
  ∃ rows,
    build_gantt_df timeline init_date non_workdays exclude_weekends = Ok rows ∧
    length rows = length timeline ∧
    ∀ (i : nat) t, timeline !! i = Some t →
      ∃ r, rows !! i = Some r ∧ Task r = task t ∧ Group r = group t.
Proof.
  intros _ Hpos Hfit.
  destruct (build_gantt_df_returns _ _ _ _ Hpos Hfit) as (rows & Hrows & Hp).
  exists rows. split; [done|].
  pose proof (placed_rows _ _ _ _ Hp) as Hall. split.
  - symmetry. by eapply Forall2_length.
  - intros i t Ht.
    destruct (Forall2_lookup_l _ _ _ _ _ Hall Ht) as (r & Hr & Hrt). eauto.
Qed.

Lemma build_gantt_df_one_row_per_task_witness :
  ∃ rows,
    build_gantt_df [mkTask 2 "A" "x"; mkTask 3 "B" "y"] (ymd 2025 1 6)
      [ymd 2025 1 8] true = Ok rows ∧
    length rows = length [mkTask 2 "A" "x"; mkTask 3 "B" "y"] ∧
    ∀ (i : nat) t, [mkTask 2 "A" "x"; mkTask 3 "B" "y"] !! i = Some t →
      ∃ r, rows !! i = Some r ∧ Task r = task t ∧ Group r = group t.
Proof.
  apply build_gantt_df_one_row_per_task.
  - discriminate.
  - repeat constructor.
  - vm_compute. discriminate.
Defined.

(** C3. In a scheduled timeline (positive durations, workday sequence not
    exhausted), for every pair of consecutive tasks [n] and [n + 1] both
    have their row, and the row of task [n + 1] starts on the first
    qualifying workday strictly after the End of the row of task [n]. *)
Theorem build_gantt_df_next_start timeline init_date non_workdays exclude_weekends :
  timeline ≠ [] →
  positive_durations timeline →
  max_days timeline ≤ Z.of_nat (length
    (workdays_from timeline init_date (list_to_set non_workdays) exclude_weekends)) →
  ∃ rows,
    build_gantt_df timeline init_date non_workdays exclude_weekends = Ok rows ∧
    ∀ (n : nat) t t', timeline !! n = Some t → timeline !! S n = Some t' →
      ∃ r r', rows !! n = Some r ∧ rows !! S n = Some r' ∧
        Task r = task t ∧ Task r' = task t' ∧
        first_workday_after exclude_weekends (list_to_set non_workdays)
          (End_ r) (Start r').
Proof.
  intros _ Hpos Hfit.
  destruct (build_gantt_df_returns _ _ _ _ Hpos Hfit) as (rows & Hrows & Hp).
  exists rows. split; [done|]. intros n t t' Ht Ht'.
  pose proof (placed_rows _ _ _ _ Hp) as Hall.
  destruct (Forall2_lookup_l _ _ _ _ _ Hall Ht) as (r & Hr & Htask & _).
  destruct (Forall2_lookup_l _ _ _ _ _ Hall Ht') as (r' & Hr' & Htask' & _).
  exists r, r'. split; [done|]. split; [done|]. split; [done|]. split; [done|].
  destruct (placed_positions _ _ _ _ Hp Hpos ltac:(lia) n t r Ht Hr)
    as (i & j & _ & _ & _ & Hj & Hnext).
  specialize (Hnext r' Hr'). unfold workdays_from, date_range in Hj, Hnext.
  split; [|split].
  - eapply filtered_run_lt; [exact Hj|exact Hnext|lia].
  - by apply filtered_run_lookup_Z in Hnext as (_ & ? & _).
  - intros e He. exact (filtered_run_gap _ _ _ _ _ _ e Hj Hnext He).
Qed.

Lemma build_gantt_df_next_start_witness :
  ∃ rows,
    build_gantt_df [mkTask 2 "A" "x"; mkTask 3 "A" "y"] (ymd 2025 1 6)
      [ymd 2025 1 8] true = Ok rows ∧
    ∀ (n : nat) t t',
      [mkTask 2 "A" "x"; mkTask 3 "A" "y"] !! n = Some t →
      [mkTask 2 "A" "x"; mkTask 3 "A" "y"] !! S n = Some t' →
      ∃ r r', rows !! n = Some r ∧ rows !! S n = Some r' ∧
        Task r = task t ∧ Task r' = task t' ∧
        first_workday_after true (list_to_set [ymd 2025 1 8]) (End_ r) (Start r').
Proof.
  apply build_gantt_df_next_start.
  - discriminate.
  - repeat constructor.
  - vm_compute. discriminate.
Defined.

(** ** Properties of the multi-timeline chainer *)



(** C6 (failing input). Two one-day timelines from Monday 2025-01-06, with
    the thirty days 2025-01-07 .. 2025-02-05 all excluded: no qualifying
    workday lies in the window scanned after the first timeline, yet the
    chainer returns, and schedules the second timeline from the unchanged
    cursor, on the very day the first one took. *)
Theorem build_gantt_sequence_empty_window_returns :
  let non_workdays := date_range (ymd 2025 1 7) 30 in
  filter (is_workday true (list_to_set non_workdays))
    (date_range (ymd 2025 1 6 + 1) 30) = [] ∧
  build_gantt_sequence [[mkTask 1 "A" "x"]; [mkTask 1 "A" "y"]]
    (ymd 2025 1 6) non_workdays true
  = Ok [[mkRow "x" "A" (ymd 2025 1 6) (ymd 2025 1 6)];
        [mkRow "y" "A" (ymd 2025 1 6) (ymd 2025 1 6)]].
Proof. vm_compute. split; reflexivity. Qed.

(** ** Failure of the single-timeline scheduler *)

(** C5 (counterexample). Neither an empty timeline nor a duration of zero
    makes the scheduler fail: the first gives an empty frame, the second a
    row whose End is read from the far end of the workday list. *)
Lemma build_gantt_df_unvalidated_input :
  build_gantt_df [] (ymd 2025 1 6) [] true = Ok [] ∧
  build_gantt_df [mkTask 0 "A" "x"; mkTask 1 "A" "y"] (ymd 2025 1 6) [] true
  = Ok [mkRow "x" "A" (ymd 2025 1 6) (ymd 2025 1 8);
        mkRow "y" "A" (ymd 2025 1 6) (ymd 2025 1 6)].
Proof. vm_compute. split; reflexivity. Qed.

(** C5 (amended). On a timeline with positive durations the scheduler fails
    exactly when the workday sequence is exhausted before all tasks are
    placed, and then with an [IndexError]; otherwise it returns one row per
    task, never a shorter frame.  An empty timeline is not a failure: it
    gives the empty frame. *)
Theorem build_gantt_df_failure timeline init_date non_workdays exclude_weekends :
  positive_durations timeline →
  let workdays :=
    workdays_from timeline init_date (list_to_set non_workdays) exclude_weekends in
  let outcome := build_gantt_df timeline init_date non_workdays exclude_weekends in
  (outcome = Raise IndexError ↔ Z.of_nat (length workdays) < max_days timeline) ∧
  (∀ e, outcome = Raise e → e = IndexError) ∧
  (max_days timeline ≤ Z.of_nat (length workdays) →
     ∃ rows, outcome = Ok rows ∧ length rows = length timeline) ∧
  (timeline = [] → outcome = Ok []).
Proof.
  intros Hpos workdays outcome.
  assert (Hok : max_days timeline ≤ Z.of_nat (length workdays) →
     ∃ rows, outcome = Ok rows ∧ length rows = length timeline).
  { intros Hfit.
    destruct (build_gantt_df_returns _ _ _ _ Hpos Hfit) as (rows & Hrows & Hp).
    exists rows. split; [done|]. symmetry.
    eapply Forall2_length, placed_rows, Hp. }
  assert (Herr : ∀ e, outcome = Raise e → e = IndexError).
  { intros e. apply place_tasks_error. }
  split; [|split; [done|split; [done|by intros ->]]].
  split.
  - intros Hraise.
    destruct (decide (Z.of_nat (length workdays) < max_days timeline)); [done|].
    destruct Hok as (rows & Hrows & _); [lia|]. congruence.
  - intros Hshort. destruct outcome as [rows|e] eqn:Hout.
    + apply build_gantt_df_placed in Hout.
      destruct (decide (timeline = [])) as [Hnil|Hcons].
      * rewrite Hnil in Hshort. change (max_days []) with 0 in Hshort. lia.
      * pose proof (placed_fits _ _ _ _ Hout Hpos ltac:(lia) Hcons) as Hfit.
        fold workdays in Hfit. lia.
    + by rewrite (Herr e eq_refl).
Qed.

Lemma build_gantt_df_failure_witness :
  build_gantt_df [mkTask 1 "A" "x"] (ymd 2025 1 11) [ymd 2025 1 13] true
  = Raise IndexError.
Proof.
  apply (build_gantt_df_failure [mkTask 1 "A" "x"] (ymd 2025 1 11)
           [ymd 2025 1 13] true).
  - repeat constructor.
  - vm_compute. reflexivity.
Defined.

(** C10. An empty timeline gives an empty frame, without any error, whatever
    the initial date, the excluded days and the weekend flag. *)
Theorem build_gantt_df_empty_timeline init_date non_workdays exclude_weekends :
  build_gantt_df [] init_date non_workdays exclude_weekends = Ok [].
Proof. reflexivity. Qed.

(** C7. The scenario of two tasks from Monday 2025-01-06 with 2025-01-08
    excluded: x takes 01-06 .. 01-07, y takes 01-09 .. 01-13. *)
Theorem build_gantt_df_scenario_excluded_day :
  build_gantt_df [mkTask 2 "A" "x"; mkTask 3 "A" "y"] (ymd 2025 1 6)
    [ymd 2025 1 8] true
  = Ok [mkRow "x" "A" (ymd 2025 1 6) (ymd 2025 1 7);
        mkRow "y" "A" (ymd 2025 1 9) (ymd 2025 1 13)].
Proof. vm_compute. reflexivity. Qed.

(** ** The workday estimator *)

Lemma estimate_workdays_filter start end_ non_workdays :
  estimate_workdays start end_ non_workdays
  = length (filter (counted non_workdays) (date_range_to start end_)).
Proof.
  unfold estimate_workdays, counted.
  destruct non_workdays as [[|h hs]|]; simpl.
  - f_equal. apply list_filter_iff. intros d. split; [|by intros [? _]].
    intros Hd. split; [done|apply not_elem_of_empty].
  - rewrite list_filter_filter. f_equal. apply list_filter_iff. intros d. tauto.
  - f_equal. apply list_filter_iff. intros d. split; [|by intros [? _]].
    intros Hd. split; [done|apply not_elem_of_empty].
Qed.

(** C8. For [start_date <= end_date] the estimator returns the number of
    dates of the inclusive range that fall on Monday to Friday and are not
    excluded: its result is the length of a duplicate-free list holding
    exactly those dates.  In particular the week 2025-01-06 .. 2025-01-12
    with nothing excluded counts 5. *)
Theorem estimate_workdays_counts :
  (∀ start end_ non_workdays, start ≤ end_ →
     ∃ days : list Z,
       NoDup days ∧
       (∀ d, d ∈ days ↔
             start ≤ d ≤ end_ ∧ weekday d < 5 ∧ d ∉ excluded non_workdays) ∧
       estimate_workdays start end_ non_workdays = length days) ∧
  estimate_workdays (ymd 2025 1 6) (ymd 2025 1 12) None = 5%nat ∧
  estimate_workdays (ymd 2025 1 6) (ymd 2025 1 12) (Some []) = 5%nat.
Proof.
  split; [|split; vm_compute; reflexivity].
  intros start end_ non_workdays _.
  exists (filter (counted non_workdays) (date_range_to start end_)).
  split; [|split].
  - apply NoDup_filter, NoDup_seqZ.
  - intros d. rewrite list_elem_of_filter. unfold date_range_to, counted.
    rewrite elem_of_seqZ. split; intros H; (split; [|split]); try tauto; lia.
  - apply estimate_workdays_filter.
Qed.

Lemma estimate_workdays_counts_witness :
  ∃ days : list Z,
    NoDup days ∧
    (∀ d, d ∈ days ↔
          ymd 2025 1 6 ≤ d ≤ ymd 2025 2 28 ∧ weekday d < 5 ∧
          d ∉ excluded (Some [ymd 2025 1 20; ymd 2025 2 17])) ∧
    estimate_workdays (ymd 2025 1 6) (ymd 2025 2 28)
      (Some [ymd 2025 1 20; ymd 2025 2 17]) = length days.
Proof.
  apply (proj1 estimate_workdays_counts). vm_compute. discriminate.
Defined.

(** C9. When [end_date] precedes [start_date] the estimator returns 0; it
    does not fail. *)
Theorem estimate_workdays_reversed start end_ non_workdays :
  end_ < start → estimate_workdays start end_ non_workdays = 0%nat.
Proof.
  intros Hlt. rewrite estimate_workdays_filter. unfold date_range_to.
  by rewrite seqZ_nil by lia.
Qed.

Lemma estimate_workdays_reversed_witness :
  estimate_workdays (ymd 2025 1 12) (ymd 2025 1 6) (Some [ymd 2025 1 8]) = 0%nat.
Proof.
  apply estimate_workdays_reversed. vm_compute. reflexivity.
Defined.

(** ** Further properties of the placement loop *)

Lemma py_getitem_elem {A} (l : list A) (i : Z) (x : A) :
  py_getitem l i = Ok x → x ∈ l.
Proof.
  unfold py_getitem. destruct ((_ <? 0) || _); [done|].
  destruct (l !! _) as [y|] eqn:Hy; [|done].
  intros [= <-]. by eapply list_elem_of_lookup_2.
Qed.

Lemma placed_elem workdays current_idx tl out :
  placed workdays current_idx tl out →
  ∀ r, r ∈ out → Start r ∈ workdays ∧ End_ r ∈ workdays.
Proof.
  induction 1 as [|idx t rest s e out Hs He _ IH]; intros r Hr.
  - by apply elem_of_nil in Hr.
  - apply elem_of_cons in Hr as [->|Hr]; [|by apply IH]. simpl.
    split; by eapply py_getitem_elem.
Qed.

Lemma placed_unique workdays current_idx tl out :
  placed workdays current_idx tl out →
  ∀ out', placed workdays current_idx tl out' → out = out'.
Proof.
  induction 1 as [|idx t rest s e out Hs He _ IH]; intros out' Hp';
    inversion Hp'; subst; [done|].
  f_equal; [congruence|]. by apply IH.
Qed.

Lemma max_days_app tl1 tl2 : max_days (tl1 ++ tl2) = max_days tl1 + max_days tl2.
Proof.
  induction tl1 as [|t tl1 IH]; [done|].
  rewrite <- app_comm_cons, !max_days_cons, IH. lia.
Qed.

(** The loop over a concatenation is the loop over the first part followed
    by the loop over the second from where the cursor then stands. *)
Lemma placed_app workdays tl1 tl2 : ∀ current_idx out,
  placed workdays current_idx (tl1 ++ tl2) out ↔
  ∃ out1 out2, out = out1 ++ out2 ∧
    placed workdays current_idx tl1 out1 ∧
    placed workdays (current_idx + max_days tl1) tl2 out2.
Proof.
  induction tl1 as [|t tl1 IH]; intros idx out; simpl.
  - change (max_days []) with 0. rewrite Z.add_0_r. split.
    + intros Hp. exists [], out. split; [done|]. split; [constructor|done].
    + intros (out1 & out2 & -> & Hp1 & Hp2). inversion Hp1; subst. done.
  - rewrite max_days_cons. split.
    + intros Hp. inversion Hp as [|? ? ? s e out' Hs He Hp']; subst.
      apply IH in Hp' as (out1 & out2 & -> & Hp1 & Hp2).
      eexists _, out2. split; [|split; [by econstructor|]].
      * done.
      * by rewrite Z.add_assoc.
    + intros (out1 & out2 & -> & Hp1 & Hp2).
      inversion Hp1 as [|? ? ? s e out' Hs He Hp']; subst.
      rewrite <- app_comm_cons. econstructor; [done|done|].
      apply IH. exists out', out2. split; [done|]. split; [done|].
      by rewrite <- Z.add_assoc.
Qed.

Lemma placed_length workdays current_idx tl out :
  placed workdays current_idx tl out → length out = length tl.
Proof. intros Hp. symmetry. eapply Forall2_length, placed_rows, Hp. Qed.

(** With positive durations the loop reads only below the cursor it ends
    on, so a longer workday list gives the same rows. *)
Lemma placed_extend workdays more current_idx tl out :
  placed workdays current_idx tl out →
  positive_durations tl → 0 ≤ current_idx →
  placed (workdays ++ more) current_idx tl out.
Proof.
  induction 1 as [|idx t rest s e out Hs He _ IH]; intros Hpos Hidx;
    [constructor|].
  inversion Hpos as [|? ? Ht Hrest]; subst.
  apply py_getitem_nonneg in Hs; [|lia]. apply py_getitem_nonneg in He; [|lia].
  constructor.
  - apply py_getitem_nonneg; [lia|]. by apply lookup_app_l_Some.
  - apply py_getitem_nonneg; [lia|]. by apply lookup_app_l_Some.
  - apply IH; [done|lia].
Qed.

(** Rows of a loop with positive durations: each spans forward, and each
    ends before every later one starts. *)
Lemma placed_ordered a n P `{!∀ d, Decision (P d)} current_idx tl out :
  placed (filter P (seqZ a n)) current_idx tl out →
  positive_durations tl → 0 ≤ current_idx →
  (∀ (k : nat) r, out !! k = Some r → Start r ≤ End_ r) ∧
  (∀ (i j : nat) ri rj, (i < j)%nat →
     out !! i = Some ri → out !! j = Some rj → End_ ri < Start rj).
Proof.
  intros Hp Hpos Hidx.
  assert (Hspan : ∀ (k : nat) r, out !! k = Some r → Start r ≤ End_ r).
  { intros k r Hr.
    destruct (Forall2_lookup_r _ _ _ _ _ (placed_rows _ _ _ _ Hp) Hr) as (t & Ht & _).
    destruct (placed_positions _ _ _ _ Hp Hpos Hidx k t r Ht Hr)
      as (i & j & Hij & _ & Hi & Hj & _).
    destruct (decide (i = j)) as [->|Hne]; [rewrite Hi in Hj; inversion Hj; lia|].
    pose proof (filtered_run_lt P a n i j _ _ Hi Hj). lia. }
  assert (Hadj : ∀ (k : nat) r r', out !! k = Some r → out !! S k = Some r' →
            End_ r < Start r').
  { intros k r r' Hr Hr'.
    destruct (Forall2_lookup_r _ _ _ _ _ (placed_rows _ _ _ _ Hp) Hr) as (t & Ht & _).
    destruct (placed_positions _ _ _ _ Hp Hpos Hidx k t r Ht Hr)
      as (i & j & _ & _ & _ & Hj & Hnext).
    specialize (Hnext r' Hr').
    eapply (filtered_run_lt P a n j (S j)); [done|done|lia]. }
  split; [done|].
  intros i j ri rj Hij Hi. revert rj. induction j as [|j IH]; intros rj Hj; [lia|].
  destruct (lookup_lt_is_Some_2 out j) as [rj' Hj'].
  { apply lookup_lt_Some in Hj. lia. }
  destruct (decide (i = j)) as [->|Hne].
  - assert (rj' = ri) as -> by congruence. by eapply Hadj.
  - assert (End_ ri < Start rj') by (apply IH; [lia|done]).
    pose proof (Hspan j rj' Hj'). pose proof (Hadj j rj' rj Hj' Hj). lia.
Qed.

Lemma count_from_zero P `{!∀ d, Decision (P d)} a n e :
  count_from P a n = 0%nat → a ≤ e < a + n → ¬ P e.
Proof.
  intros Hc He HP.
  replace n with ((e - a) + (1 + (a + n - (e + 1)))) in Hc by lia.
  rewrite !count_from_split in Hc by lia. rewrite count_from_one in Hc.
  replace (a + (e - a)) with e in Hc by lia.
  destruct (decide (P e)); [lia|done].
Qed.

(** X1. The rows of a timeline with positive durations follow one another
    without overlap: each row starts no later than it ends, and ends
    strictly before every later row starts. *)
Theorem build_gantt_df_rows_disjoint timeline init_date non_workdays
    exclude_weekends rows :
  positive_durations timeline →
  build_gantt_df timeline init_date non_workdays exclude_weekends = Ok rows →
  (∀ (k : nat) r, rows !! k = Some r → Start r ≤ End_ r) ∧
  (∀ (i j : nat) ri rj, (i < j)%nat →
     rows !! i = Some ri → rows !! j = Some rj → End_ ri < Start rj).
Proof.
  intros Hpos Hrows. apply build_gantt_df_placed in Hrows.
  unfold workdays_from, date_range in Hrows.
  by eapply placed_ordered.
Qed.

Lemma build_gantt_df_rows_disjoint_witness :
  (∀ (k : nat) r,
     [mkRow "x" "A" (ymd 2025 1 6) (ymd 2025 1 7);
      mkRow "y" "A" (ymd 2025 1 9) (ymd 2025 1 13)] !! k = Some r →
     Start r ≤ End_ r) ∧
  (∀ (i j : nat) ri rj, (i < j)%nat →
     [mkRow "x" "A" (ymd 2025 1 6) (ymd 2025 1 7);
      mkRow "y" "A" (ymd 2025 1 9) (ymd 2025 1 13)] !! i = Some ri →
     [mkRow "x" "A" (ymd 2025 1 6) (ymd 2025 1 7);
      mkRow "y" "A" (ymd 2025 1 9) (ymd 2025 1 13)] !! j = Some rj →
     End_ ri < Start rj).
Proof.
  apply (build_gantt_df_rows_disjoint [mkTask 2 "A" "x"; mkTask 3 "A" "y"]
           (ymd 2025 1 6) [ymd 2025 1 8] true).
  - repeat constructor.
  - vm_compute. reflexivity.
Defined.

(** X2. Whatever the durations, every Start and every End of a returned
    frame is a qualifying workday of the generated calendar: it passes the
    weekend rule, is not excluded, and lies in the [3 * max_days] days that
    begin at [init_date]. *)
Theorem build_gantt_df_dates_qualify timeline init_date non_workdays
    exclude_weekends rows r :
  build_gantt_df timeline init_date non_workdays exclude_weekends = Ok rows →
  r ∈ rows →
  let X : gset Z := list_to_set non_workdays in
  (is_workday exclude_weekends X (Start r) ∧
   init_date ≤ Start r < init_date + max_days timeline * 3) ∧
  (is_workday exclude_weekends X (End_ r) ∧
   init_date ≤ End_ r < init_date + max_days timeline * 3).
Proof.
  intros Hrows Hr X. apply build_gantt_df_placed in Hrows.
  destruct (placed_elem _ _ _ _ Hrows r Hr) as [Hs He].
  unfold workdays_from, date_range in Hs, He.
  apply list_elem_of_filter in Hs as [Hs Hs'], He as [He He'].
  apply elem_of_seqZ in Hs', He'. done.
Qed.

Lemma build_gantt_df_dates_qualify_witness :
  (is_workday true (list_to_set [ymd 2025 1 8]) (ymd 2025 1 9) ∧
   ymd 2025 1 6 ≤ ymd 2025 1 9
     < ymd 2025 1 6 + max_days [mkTask 2 "A" "x"; mkTask 3 "A" "y"] * 3) ∧
  (is_workday true (list_to_set [ymd 2025 1 8]) (ymd 2025 1 13) ∧
   ymd 2025 1 6 ≤ ymd 2025 1 13
     < ymd 2025 1 6 + max_days [mkTask 2 "A" "x"; mkTask 3 "A" "y"] * 3).
Proof.
  apply (build_gantt_df_dates_qualify [mkTask 2 "A" "x"; mkTask 3 "A" "y"]
           (ymd 2025 1 6) [ymd 2025 1 8] true
           [mkRow "x" "A" (ymd 2025 1 6) (ymd 2025 1 7);
            mkRow "y" "A" (ymd 2025 1 9) (ymd 2025 1 13)]
           (mkRow "y" "A" (ymd 2025 1 9) (ymd 2025 1 13))).
  - vm_compute. reflexivity.
  - apply elem_of_cons. right. apply elem_of_cons. by left.
Defined.

(** X3. The first row of a returned frame starts on the first qualifying
    workday at or after [init_date], which need not be a workday itself. *)
Theorem build_gantt_df_first_row_start timeline init_date non_workdays
    exclude_weekends r rows :
  build_gantt_df timeline init_date non_workdays exclude_weekends
    = Ok (r :: rows) →
  let X : gset Z := list_to_set non_workdays in
  init_date ≤ Start r ∧ is_workday exclude_weekends X (Start r) ∧
  ∀ d, init_date ≤ d < Start r → ¬ is_workday exclude_weekends X d.
Proof.
  intros Hrows X. apply build_gantt_df_placed in Hrows.
  inversion Hrows as [|? t rest s e out Hs He _]; subst. simpl.
  apply py_getitem_nonneg in Hs; [|done]. unfold workdays_from, date_range in Hs.
  apply filtered_run_lookup_Z in Hs as (Hr & HP & Hc).
  split; [lia|]. split; [done|]. intros d Hd.
  eapply count_from_zero; [exact Hc|lia].
Qed.

Lemma build_gantt_df_first_row_start_witness :
  ymd 2025 1 11 ≤ Start (mkRow "x" "A" (ymd 2025 1 14) (ymd 2025 1 14)) ∧
  is_workday true (list_to_set [ymd 2025 1 13])
    (Start (mkRow "x" "A" (ymd 2025 1 14) (ymd 2025 1 14))) ∧
  ∀ d, ymd 2025 1 11 ≤ d < Start (mkRow "x" "A" (ymd 2025 1 14) (ymd 2025 1 14)) →
       ¬ is_workday true (list_to_set [ymd 2025 1 13]) d.
Proof.
  apply (build_gantt_df_first_row_start
           [mkTask 1 "A" "x"; mkTask 1 "A" "y"] (ymd 2025 1 11)
           [ymd 2025 1 13] true _ [mkRow "y" "A" (ymd 2025 1 15) (ymd 2025 1 15)]).
  vm_compute. reflexivity.
Defined.

(** ** When the generated calendar suffices *)

Lemma weekend_is_not_workday X d :
  ¬ is_workday true X d → d ∉ X → 5 ≤ weekday d.
Proof.
  intros Hn HX. destruct (decide (weekday d < 5)) as [Hlt|]; [|lia].
  exfalso. apply Hn. split; [by right|done].
Qed.

(** Any three consecutive days hold a qualifying day when nothing is
    excluded. *)
Lemma count_from_three exclude_weekends a :
  (1 ≤ count_from (is_workday exclude_weekends ∅) a 3)%nat.
Proof.
  replace 3 with (1 + (1 + 1)) by lia.
  rewrite !count_from_split by lia. rewrite !count_from_one.
  destruct exclude_weekends.
  - destruct (decide (is_workday true ∅ a)) as [|H0]; [lia|].
    destruct (decide (is_workday true ∅ (a + 1))) as [|H1]; [lia|].
    destruct (decide (is_workday true ∅ (a + 1 + 1))) as [|H2]; [lia|].
    apply weekend_is_not_workday in H0, H1, H2; try apply not_elem_of_empty.
    unfold weekday in *. exfalso. Z.div_mod_to_equations. lia.
  - destruct (decide (is_workday false ∅ a)) as [|H0]; [lia|].
    exfalso. apply H0. split; [by left|apply not_elem_of_empty].
Qed.

Lemma count_from_blocks exclude_weekends (k : nat) : ∀ a,
  (k ≤ count_from (is_workday exclude_weekends ∅) a (Z.of_nat k * 3))%nat.
Proof.
  induction k as [|k IH]; intros a; [lia|].
  replace (Z.of_nat (S k) * 3) with (3 + Z.of_nat k * 3) by lia.
  rewrite count_from_split by lia.
  pose proof (count_from_three exclude_weekends a). specialize (IH (a + 3)). lia.
Qed.

(** X4. With no excluded day the calendar of three times the total duration
    always holds enough workdays: a timeline with positive durations is
    scheduled, with or without the weekend rule, from any initial date. *)
Theorem build_gantt_df_no_exclusion_returns timeline init_date exclude_weekends :
  positive_durations timeline →
  ∃ rows, build_gantt_df timeline init_date [] exclude_weekends = Ok rows ∧
          length rows = length timeline.
Proof.
  intros Hpos.
  destruct (build_gantt_df_returns timeline init_date [] exclude_weekends Hpos)
    as (rows & Hrows & Hp).
  - pose proof (max_days_nonneg _ Hpos) as Hnn.
    pose proof (count_from_blocks exclude_weekends (Z.to_nat (max_days timeline))
                  init_date) as Hk.
    rewrite Z2Nat.id in Hk by done.
    unfold workdays_from, date_range. change (list_to_set []) with (∅ : gset Z).
    unfold count_from in Hk. lia.
  - exists rows. split; [done|]. by eapply placed_length.
Qed.

Lemma build_gantt_df_no_exclusion_returns_witness :
  ∃ rows, build_gantt_df [mkTask 1 "A" "x"] (ymd 2025 1 11) [] true = Ok rows ∧
          length rows = length [mkTask 1 "A" "x"].
Proof.
  apply build_gantt_df_no_exclusion_returns. repeat constructor.
Defined.

Lemma filter_not_in_length (l bad : list Z) :
  NoDup l →
  (length l ≤ length (filter (λ d, d ∉ bad) l) + length bad)%nat.
Proof.
  intros Hnd.
  pose proof (filter_app_complement (λ d, d ∉ bad) l) as Hperm.
  apply Permutation_length in Hperm. rewrite length_app in Hperm.
  assert (filter (λ d : Z, ¬ (d ∉ bad)) l ⊆+ bad) as Hsub.
  { apply NoDup_submseteq; [by apply NoDup_filter|].
    intros x Hx. apply list_elem_of_filter in Hx as [Hx _].
    destruct (decide (x ∈ bad)); [done|by exfalso]. }
  apply submseteq_length in Hsub. lia.
Qed.

(** X5. Without the weekend rule, a timeline with positive durations is
    scheduled whenever the list of non-working days is at most twice as long
    as the total duration. *)
Theorem build_gantt_df_few_exclusions_returns timeline init_date non_workdays :
  positive_durations timeline →
  Z.of_nat (length non_workdays) ≤ 2 * max_days timeline →
  ∃ rows, build_gantt_df timeline init_date non_workdays false = Ok rows ∧
          length rows = length timeline.
Proof.
  intros Hpos Hfew.
  destruct (build_gantt_df_returns timeline init_date non_workdays false Hpos)
    as (rows & Hrows & Hp).
  - pose proof (max_days_nonneg _ Hpos) as Hnn.
    unfold workdays_from, date_range.
    rewrite (list_filter_iff _ (λ d, d ∉ non_workdays)).
    + pose proof (filter_not_in_length (seqZ init_date (max_days timeline * 3))
                    non_workdays (NoDup_seqZ _ _)) as Hlen.
      rewrite length_seqZ in Hlen. lia.
    + intros d. unfold is_workday. rewrite elem_of_list_to_set. tauto.
  - exists rows. split; [done|]. by eapply placed_length.
Qed.

Lemma build_gantt_df_few_exclusions_returns_witness :
  ∃ rows,
    build_gantt_df [mkTask 1 "A" "x"] (ymd 2025 1 6)
      [ymd 2025 1 6; ymd 2025 1 7] false = Ok rows ∧
    length rows = length [mkTask 1 "A" "x"].
Proof.
  apply build_gantt_df_few_exclusions_returns.
  - repeat constructor.
  - vm_compute. discriminate.
Defined.

(** ** Longer timelines *)

Lemma workdays_from_app tl1 tl2 init_date X exclude_weekends :
  0 ≤ max_days tl1 → 0 ≤ max_days tl2 →
  workdays_from (tl1 ++ tl2) init_date X exclude_weekends
  = workdays_from tl1 init_date X exclude_weekends
    ++ filter (is_workday exclude_weekends X)
         (seqZ (init_date + max_days tl1 * 3) (max_days tl2 * 3)).
Proof.
  intros H1 H2. unfold workdays_from, date_range.
  rewrite max_days_app, Z.mul_add_distr_r, seqZ_app by lia.
  by rewrite filter_app.
Qed.

(** X6. Appending tasks to a timeline never moves the earlier ones: when the
    timeline alone and the longer timeline are both scheduled, the rows of
    the first are the leading rows of the second. *)
Theorem build_gantt_df_append_keeps_rows tl1 tl2 init_date non_workdays
    exclude_weekends rows1 rows :
  positive_durations (tl1 ++ tl2) →
  build_gantt_df tl1 init_date non_workdays exclude_weekends = Ok rows1 →
  build_gantt_df (tl1 ++ tl2) init_date non_workdays exclude_weekends = Ok rows →
  take (length tl1) rows = rows1.
Proof.
  intros Hpos H1 H12. apply Forall_app in Hpos as [Hpos1 Hpos2].
  apply build_gantt_df_placed in H1, H12.
  rewrite workdays_from_app in H12 by by apply max_days_nonneg.
  apply placed_app in H12 as (out1 & out2 & -> & Hp1 & _).
  pose proof (placed_extend _
    (filter (is_workday exclude_weekends (list_to_set non_workdays))
       (seqZ (init_date + max_days tl1 * 3) (max_days tl2 * 3)))
    _ _ _ H1 Hpos1 ltac:(done)) as H1'.
  rewrite (placed_unique _ _ _ _ H1' _ Hp1).
  rewrite <- (placed_length _ _ _ _ Hp1). by rewrite take_app_length.
Qed.

Lemma build_gantt_df_append_keeps_rows_witness :
  take (length [mkTask 2 "A" "x"])
    [mkRow "x" "A" (ymd 2025 1 6) (ymd 2025 1 7);
     mkRow "y" "A" (ymd 2025 1 9) (ymd 2025 1 13)]
  = [mkRow "x" "A" (ymd 2025 1 6) (ymd 2025 1 7)].
Proof.
  apply (build_gantt_df_append_keeps_rows [mkTask 2 "A" "x"] [mkTask 3 "A" "y"]
           (ymd 2025 1 6) [ymd 2025 1 8] true).
  - repeat constructor.
  - vm_compute. reflexivity.
  - vm_compute. reflexivity.
Defined.

(** X7. A duration of zero is not refused.  Placed after tasks with positive
    durations, such a task gets a row that ends before it starts: its End
    is read one position before its Start in the workday list. *)
Theorem build_gantt_df_zero_duration_row pre t post init_date non_workdays
    exclude_weekends rows :
  pre ≠ [] →
  positive_durations pre →
  duration t = 0 →
  build_gantt_df (pre ++ t :: post) init_date non_workdays exclude_weekends
    = Ok rows →
  ∃ r, rows !! length pre = Some r ∧ Task r = task t ∧ End_ r < Start r.
Proof.
  intros Hne Hpos Hzero Hrows. apply build_gantt_df_placed in Hrows.
  apply placed_app in Hrows as (out1 & out2 & -> & Hp1 & Hp2).
  inversion Hp2 as [|? ? ? s e out Hs He _]; subst.
  assert (0 < max_days pre) as Hcur.
  { destruct pre as [|t0 pre]; [done|].
    inversion Hpos as [|? ? Ht0 Hrest]; subst.
    rewrite max_days_cons. pose proof (max_days_nonneg pre Hrest). lia. }
  eexists. split; [|split].
  - rewrite <- (placed_length _ _ _ _ Hp1). by rewrite list_lookup_middle.
  - done.
  - simpl. apply py_getitem_nonneg in Hs; [|lia].
    apply py_getitem_nonneg in He; [|lia].
    unfold workdays_from, date_range in Hs, He.
    eapply filtered_run_lt; [exact He|exact Hs|lia].
Qed.

Lemma build_gantt_df_zero_duration_row_witness :
  ∃ r,
    [mkRow "x" "A" (ymd 2025 1 6) (ymd 2025 1 6);
     mkRow "y" "A" (ymd 2025 1 7) (ymd 2025 1 6)] !! length [mkTask 1 "A" "x"]
      = Some r ∧
    Task r = task (mkTask 0 "A" "y") ∧ End_ r < Start r.
Proof.
  apply (build_gantt_df_zero_duration_row [mkTask 1 "A" "x"] (mkTask 0 "A" "y") []
           (ymd 2025 1 6) [] true).
  - discriminate.
  - repeat constructor.
  - reflexivity.
  - vm_compute. reflexivity.
Defined.

(** ** Further properties of the chaining loop *)

Lemma chained_frames non_workdays exclude_weekends current_date timelines out :
  chained non_workdays exclude_weekends current_date timelines out →
  Forall2 (λ tl df, df ≠ [] ∧
             ∃ cursor, build_gantt_df tl cursor non_workdays exclude_weekends = Ok df)
    timelines out.
Proof.
  induction 1 as [|cur tl rest df last out Hdf Hlast _ IH]; constructor; [|done].
  split; [by intros ->|eauto].
Qed.

Lemma chained_neighbours_timeline non_workdays exclude_weekends current_date
    timelines out :
  chained non_workdays exclude_weekends current_date timelines out →
  ∀ (k : nat) df df', out !! k = Some df → out !! S k = Some df' →
  ∃ cursor tl tl' last_date,
    timelines !! k = Some tl ∧
    timelines !! S k = Some tl' ∧
    build_gantt_df tl cursor non_workdays exclude_weekends = Ok df ∧
    End_max df = Ok last_date ∧
    build_gantt_df tl'
      (advance exclude_weekends (list_to_set non_workdays)
         (date_range (last_date + 1) 30) cursor)
      non_workdays exclude_weekends = Ok df'.
Proof.
  induction 1 as [|cur tl rest df0 last out Hdf Hlast Hc IH]; intros k df df' Hk Hk';
    [done|].
  destruct k as [|k]; simpl in Hk, Hk'.
  - inversion Hk; subst df0.
    inversion Hc as [|? tl' ? df1 last' ? Hdf' Hlast' _]; subst; [done|].
    simpl in Hk'. inversion Hk'; subst df1.
    exists cur, tl, tl', last. done.
  - destruct (IH k df df' Hk Hk') as (cursor & tl0 & tl' & last' & H).
    exists cursor, tl0, tl', last'. done.
Qed.

(** X8. A chain that returns gives one frame per timeline, in order, and
    each frame holds one row per task of its timeline, carrying the task's
    description and group. *)
Theorem build_gantt_sequence_frames timelines init_date non_workdays
    exclude_weekends gantt_dfs :
  build_gantt_sequence timelines init_date non_workdays exclude_weekends
    = Ok gantt_dfs →
  Forall2 (λ timeline gantt_df,
             Forall2 (λ t r, Task r = task t ∧ Group r = group t)
               timeline gantt_df)
    timelines gantt_dfs.
Proof.
  intros Hseq. apply chain_chained in Hseq as (out & -> & Hc). simpl.
  eapply Forall2_impl; [by eapply chained_frames|].
  intros tl df (_ & cursor & Hdf). simpl in Hdf.
  apply build_gantt_df_placed in Hdf. by eapply placed_rows.
Qed.

Lemma build_gantt_sequence_frames_witness :
  Forall2 (λ timeline gantt_df,
             Forall2 (λ t r, Task r = task t ∧ Group r = group t)
               timeline gantt_df)
    [[mkTask 1 "A" "x"]; [mkTask 1 "A" "y"]]
    [[mkRow "x" "A" (ymd 2025 1 10) (ymd 2025 1 10)];
     [mkRow "y" "A" (ymd 2025 1 13) (ymd 2025 1 13)]].
Proof.
  apply (build_gantt_sequence_frames _ (ymd 2025 1 10) [] true).
  vm_compute. reflexivity.
Defined.

(** X9. The chainer fails on any list that holds an empty timeline: the
    empty frame the scheduler returns for it has no column End to take the
    maximum of. *)
Theorem build_gantt_sequence_empty_timeline_fails timelines init_date
    non_workdays exclude_weekends :
  [] ∈ timelines →
  ∃ e, build_gantt_sequence timelines init_date non_workdays exclude_weekends
       = Raise e.
Proof.
  intros Hin.
  destruct (build_gantt_sequence timelines init_date non_workdays exclude_weekends)
    as [dfs|e] eqn:Hseq; [|eauto].
  exfalso. apply chain_chained in Hseq as (out & -> & Hc).
  apply chained_frames in Hc.
  apply list_elem_of_lookup in Hin as [k Hk].
  destruct (Forall2_lookup_l _ _ _ _ _ Hc Hk) as (df & _ & Hne & cursor & Hdf).
  simpl in Hdf. compute in Hdf. congruence.
Qed.

Lemma build_gantt_sequence_empty_timeline_fails_witness :
  ∃ e, build_gantt_sequence [[mkTask 1 "A" "x"]; []] (ymd 2025 1 6) [] true
       = Raise e.
Proof.
  apply build_gantt_sequence_empty_timeline_fails.
  apply elem_of_cons. right. apply elem_of_cons. by left.
Defined.

(** The last row of a loop with positive durations ends on the workday just
    below the cursor the loop ends on. *)
Lemma placed_last_end workdays current_idx tl out :
  placed workdays current_idx tl out →
  positive_durations tl → 0 ≤ current_idx →
  ∀ r, last out = Some r →
  workdays !! Z.to_nat (current_idx + max_days tl - 1) = Some (End_ r).
Proof.
  induction 1 as [|idx t rest s e out Hs He Hp IH]; intros Hpos Hidx r Hr; [done|].
  inversion Hpos as [|? ? Ht Hrest]; subst. rewrite max_days_cons.
  destruct out as [|r' out].
  - inversion Hp; subst. simpl in Hr. inversion Hr; subst. simpl.
    change (max_days []) with 0. apply py_getitem_nonneg in He; [|lia].
    by replace (idx + (duration t + 0) - 1) with (idx + duration t - 1) by lia.
  - rewrite Z.add_assoc. apply IH; [done|lia|]. by rewrite last_cons_cons in Hr.
Qed.

(** For positive durations the largest End of a frame is the End of its
    last row. *)
Lemma End_max_last a n P `{!∀ d, Decision (P d)} current_idx tl out last_date :
  placed (filter P (seqZ a n)) current_idx tl out →
  positive_durations tl → 0 ≤ current_idx →
  End_max out = Ok last_date →
  ∃ r, last out = Some r ∧ End_ r = last_date.
Proof.
  intros Hp Hpos Hidx Hmax.
  destruct (placed_ordered _ _ _ _ _ _ Hp Hpos Hidx) as [Hspan Hlt].
  apply End_max_spec in Hmax as ((r & Hr & <-) & Hall).
  apply list_elem_of_lookup in Hr as [i Hi].
  destruct (last out) as [rl|] eqn:Hl.
  - exists rl. split; [done|]. rewrite last_lookup in Hl.
    destruct (decide (i = pred (length out))) as [->|Hne]; [congruence|].
    pose proof (lookup_lt_Some _ _ _ Hi).
    pose proof (Hlt i (pred (length out)) r rl ltac:(lia) Hi Hl).
    pose proof (Hspan _ _ Hl).
    pose proof (Hall rl ltac:(by eapply list_elem_of_lookup_2)). lia.
  - apply last_None in Hl. subst out. done.
Qed.

Lemma count_from_unique P `{!∀ d, Decision (P d)} a x y :
  a ≤ x → a ≤ y → P x → P y →
  count_from P a (x - a) = count_from P a (y - a) → x = y.
Proof.
  assert (Hlt : ∀ u v, a ≤ u → u < v → P u →
            (count_from P a (u - a) < count_from P a (v - a))%nat).
  { intros u v Hu Huv HPu.
    pose proof (count_from_mono P a (u + 1 - a) (v - a) ltac:(lia)) as Hm.
    replace (u + 1 - a) with ((u - a) + 1) in Hm by lia.
    rewrite count_from_split, count_from_one in Hm by lia.
    replace (a + (u - a)) with u in Hm by lia.
    destruct (decide (P u)); [lia|done]. }
  intros Hx Hy HPx HPy Heq.
  destruct (Z.lt_trichotomy x y) as [Hxy|[->|Hxy]]; [|done|].
  - pose proof (Hlt x y Hx Hxy HPx). lia.
  - pose proof (Hlt y x Hy Hxy HPy). lia.
Qed.

(** A filtered run that starts on an element of another one continues it. *)
Lemma filtered_run_continue P `{!∀ d, Decision (P d)} a n m (i k : nat) c x y :
  filter P (seqZ a n) !! i = Some c →
  filter P (seqZ c m) !! k = Some x →
  filter P (seqZ a n) !! (i + k)%nat = Some y →
  x = y.
Proof.
  intros Hc Hx Hy.
  apply filtered_run_lookup_Z in Hc as (Hrc & HPc & Hcc).
  apply filtered_run_lookup_Z in Hx as (Hrx & HPx & Hcx).
  apply filtered_run_lookup_Z in Hy as (Hry & HPy & Hcy).
  apply (count_from_unique P a); [lia|lia|done|done|].
  replace (x - a) with ((c - a) + (x - c)) by lia.
  rewrite count_from_split by lia.
  replace (a + (c - a)) with c by lia. lia.
Qed.

Lemma placed_shift workdays' workdays (T : nat) :
  (∀ (k : nat) x y, workdays' !! k = Some x → workdays !! (T + k)%nat = Some y →
                    x = y) →
  ∀ current_idx tl out' out,
  placed workdays' current_idx tl out' →
  placed workdays (Z.of_nat T + current_idx) tl out →
  positive_durations tl → 0 ≤ current_idx →
  out' = out.
Proof.
  intros Hsame idx tl out' out Hp'. revert out.
  induction Hp' as [|idx t rest s' e' out' Hs' He' _ IH]; intros out Hp Hpos Hidx;
    inversion Hp as [|? ? ? s e out0 Hs He Hp0]; subst; [done|].
  inversion Hpos as [|? ? Ht Hrest]; subst.
  apply py_getitem_nonneg in Hs', He', Hs, He; try lia.
  replace (Z.to_nat (Z.of_nat T + idx)) with (T + Z.to_nat idx)%nat in Hs by lia.
  replace (Z.to_nat (Z.of_nat T + idx + duration t - 1))
    with (T + Z.to_nat (idx + duration t - 1))%nat in He by lia.
  rewrite (Hsame _ _ _ Hs' Hs), (Hsame _ _ _ He' He). f_equal.
  apply IH; [|done|lia]. by rewrite Z.add_assoc.
Qed.

(** X10. For positive durations the largest End of a returned frame, which
    the chainer scans from, is the End of the frame's last row. *)
Theorem build_gantt_df_End_max_is_last timeline init_date non_workdays
    exclude_weekends rows last_date :
  positive_durations timeline →
  build_gantt_df timeline init_date non_workdays exclude_weekends = Ok rows →
  End_max rows = Ok last_date →
  ∃ r, last rows = Some r ∧ End_ r = last_date.
Proof.
  intros Hpos Hrows Hmax. apply build_gantt_df_placed in Hrows.
  unfold workdays_from, date_range in Hrows. by eapply End_max_last.
Qed.

Lemma build_gantt_df_End_max_is_last_witness :
  ∃ r, last [mkRow "x" "A" (ymd 2025 1 6) (ymd 2025 1 7);
             mkRow "y" "A" (ymd 2025 1 9) (ymd 2025 1 13)] = Some r ∧
       End_ r = ymd 2025 1 13.
Proof.
  apply (build_gantt_df_End_max_is_last [mkTask 2 "A" "x"; mkTask 3 "A" "y"]
           (ymd 2025 1 6) [ymd 2025 1 8] true).
  - repeat constructor.
  - vm_compute. reflexivity.
  - vm_compute. reflexivity.
Defined.

(** X11. Chaining two timelines gives the dates of scheduling them as one:
    with positive durations, when a qualifying workday lies in the 30 days
    scanned after the first frame and the concatenated timeline is scheduled
    too, its rows are the rows of the two frames, one after the other. *)
Theorem build_gantt_sequence_concat tl1 tl2 init_date non_workdays
    exclude_weekends df1 df2 rows last_date :
  positive_durations (tl1 ++ tl2) →
  build_gantt_sequence [tl1; tl2] init_date non_workdays exclude_weekends
    = Ok [df1; df2] →
  build_gantt_df (tl1 ++ tl2) init_date non_workdays exclude_weekends = Ok rows →
  End_max df1 = Ok last_date →
  (∃ d, last_date < d ≤ last_date + 30 ∧
        is_workday exclude_weekends (list_to_set non_workdays) d) →
  rows = df1 ++ df2.
Proof.
  intros Hpos Hseq Hrows Hlast (d & Hd & Hw).
  apply Forall_app in Hpos as [Hpos1 Hpos2].
  pose proof (max_days_nonneg _ Hpos1) as Hnn1.
  pose proof (max_days_nonneg _ Hpos2) as Hnn2.
  set (X := list_to_set non_workdays : gset Z) in *.
  set (P := is_workday exclude_weekends X) in *.
  (* the two frames of the chain *)
  apply chain_chained in Hseq as (out & Hout & Hc). simpl in Hout. subst out.
  inversion Hc as [|? ? ? ? last1 ? Hdf1 Hlast1 Hc']; subst.
  inversion Hc' as [|? ? ? ? last2 ? Hdf2 Hlast2 _]; subst.
  assert (last1 = last_date) as -> by congruence. fold X in Hdf2.
  destruct (advance_first exclude_weekends X 30 (last_date + 1) init_date)
    as (Hr & Hday & Hfirst).
  { exists d. split; [lia|done]. }
  change (seqZ (last_date + 1) (Z.of_nat 30)) with (date_range (last_date + 1) 30)
    in Hr, Hday, Hfirst.
  set (cursor := advance exclude_weekends X (date_range (last_date + 1) 30) init_date)
    in *.
  apply build_gantt_df_placed in Hdf1, Hdf2, Hrows. fold X in Hdf1, Hdf2, Hrows.
  (* the rows of the concatenation *)
  pose proof Hrows as Hcat.
  apply placed_app in Hcat as (out1 & out2 & -> & Hp1 & Hp2).
  assert (out1 = df1) as ->.
  { rewrite workdays_from_app in Hp1 by done.
    symmetry. eapply placed_unique; [|exact Hp1].
    by apply placed_extend. }
  f_equal. symmetry.
  (* the first frame ends on position [max_days tl1 - 1] of the long run *)
  unfold workdays_from, date_range in Hdf1, Hdf2, Hp2. fold P in Hdf1, Hdf2, Hp2.
  destruct (End_max_last _ _ P _ _ _ _ Hdf1 Hpos1 ltac:(done) Hlast)
    as (rl & Hrl & Hrl_end).
  pose proof (placed_last_end _ _ _ _ Hdf1 Hpos1 ltac:(done) rl Hrl) as Hw1.
  rewrite Hrl_end, Z.add_0_l in Hw1.
  assert (0 < max_days tl1) as HT1.
  { destruct tl1 as [|t0 tl1]; [by inversion Hdf1; subst|].
    inversion Hpos1 as [|? ? Ht0 Hrest]; subst. rewrite max_days_cons.
    pose proof (max_days_nonneg _ Hrest). lia. }
  assert (Hlong : filter P (seqZ init_date (max_days (tl1 ++ tl2) * 3))
                  !! Z.to_nat (max_days tl1 - 1) = Some last_date).
  { rewrite max_days_app, Z.mul_add_distr_r, seqZ_app, filter_app by lia.
    by apply lookup_app_l_Some. }
  (* the second frame is not empty, so the long run reaches its start *)
  inversion Hdf2 as [|? t2 rest2 s2 e2 out2' Hs2 He2 Hp2']; subst;
    [by inversion Hlast2|].
  inversion Hp2 as [|? ? ? s e out0 Hs He Hp0]; subst.
  apply py_getitem_nonneg in Hs; [|lia].
  rewrite Z.add_0_l in Hs.
  assert (s = cursor) as ->.
  { replace (Z.to_nat (max_days tl1)) with (S (Z.to_nat (max_days tl1 - 1))) in Hs
      by lia.
    pose proof (filtered_run_lt P _ _ _ _ _ _ Hlong Hs ltac:(lia)) as Hlt.
    pose proof (filtered_run_lookup_Z P _ _ _ _ Hs) as (_ & HPs & _).
    destruct (Z.lt_trichotomy s cursor) as [Hsc|[->|Hsc]]; [|done|].
    - exfalso. apply (Hfirst s); [lia|done].
    - exfalso. apply (filtered_run_gap P _ _ _ _ _ cursor Hlong Hs); [lia|done]. }
  eapply (placed_shift _ _ (Z.to_nat (max_days tl1)));
    [|exact Hdf2| |exact Hpos2|done].
  - intros k x y Hx Hy. eapply (filtered_run_continue P); [exact Hs|exact Hx|exact Hy].
  - rewrite Z2Nat.id by lia. rewrite Z.add_0_r. rewrite Z.add_0_l in Hp2.
    exact Hp2.
Qed.

Lemma build_gantt_sequence_concat_witness :
  [mkRow "x" "A" (ymd 2025 1 6) (ymd 2025 1 7);
   mkRow "y" "A" (ymd 2025 1 9) (ymd 2025 1 13)]
  = [mkRow "x" "A" (ymd 2025 1 6) (ymd 2025 1 7)]
    ++ [mkRow "y" "A" (ymd 2025 1 9) (ymd 2025 1 13)].
Proof.
  apply (build_gantt_sequence_concat [mkTask 2 "A" "x"] [mkTask 3 "A" "y"]
           (ymd 2025 1 6) [ymd 2025 1 8] true _ _ _ (ymd 2025 1 7)).
  - repeat constructor.
  - vm_compute. reflexivity.
  - vm_compute. reflexivity.
  - vm_compute. reflexivity.
  - exists (ymd 2025 1 9). split; [vm_compute; split; [reflexivity|discriminate]|].
    apply (bool_decide_unpack _). vm_compute. exact I.
Defined.

(** X12. Frames of a chain do not overlap: when a qualifying workday lies in
    the 30 days scanned after frame [k] and timeline [k + 1] has positive
    durations, every row of frame [k + 1] starts after every row of frame
    [k] has ended. *)
Theorem build_gantt_sequence_frames_disjoint timelines init_date non_workdays
    exclude_weekends gantt_dfs (k : nat) df df' timeline' last_date r r' :
  build_gantt_sequence timelines init_date non_workdays exclude_weekends
    = Ok gantt_dfs →
  gantt_dfs !! k = Some df →
  gantt_dfs !! S k = Some df' →
  timelines !! S k = Some timeline' →
  positive_durations timeline' →
  End_max df = Ok last_date →
  (∃ d, last_date < d ≤ last_date + 30 ∧
        is_workday exclude_weekends (list_to_set non_workdays) d) →
  r ∈ df → r' ∈ df' →
  End_ r < Start r'.
Proof.
  intros Hseq Hk Hk' Htl Hpos Hlast (d & Hd & Hw) Hr Hr'.
  apply chain_chained in Hseq as (out & -> & Hc). simpl in Hk, Hk'.
  destruct (chained_neighbours_timeline _ _ _ _ _ Hc k df df' Hk Hk')
    as (cursor & tl & tl' & last & _ & Htl' & _ & Hlast' & Hdf').
  assert (last = last_date) as -> by congruence.
  assert (tl' = timeline') as -> by congruence.
  destruct (advance_first exclude_weekends (list_to_set non_workdays) 30
              (last_date + 1) cursor) as (Hrange & Hday & _).
  { exists d. split; [lia|done]. }
  change (seqZ (last_date + 1) (Z.of_nat 30)) with (date_range (last_date + 1) 30)
    in Hrange, Hday.
  apply End_max_spec in Hlast as [_ Hall]. specialize (Hall r Hr).
  apply list_elem_of_lookup in Hr' as [j Hj].
  destruct (build_gantt_df_first_start _ _ _ _ _ Hdf') as (r0 & Hr0 & Hstart);
    [by intros ->|done|].
  destruct (decide (j = 0%nat)) as [->|Hne].
  - assert (r' = r0) as -> by congruence. lia.
  - apply build_gantt_df_placed in Hdf'. unfold workdays_from, date_range in Hdf'.
    destruct (placed_ordered _ _ _ _ _ _ Hdf' Hpos ltac:(done)) as [Hspan Hlt].
    pose proof (Hspan _ _ Hr0). pose proof (Hlt 0%nat j r0 r' ltac:(lia) Hr0 Hj).
    lia.
Qed.

Lemma build_gantt_sequence_frames_disjoint_witness :
  End_ (mkRow "x" "A" (ymd 2025 1 10) (ymd 2025 1 10))
  < Start (mkRow "y" "A" (ymd 2025 1 13) (ymd 2025 1 13)).
Proof.
  apply (build_gantt_sequence_frames_disjoint
           [[mkTask 1 "A" "x"]; [mkTask 1 "A" "y"]] (ymd 2025 1 10) [] true
           [[mkRow "x" "A" (ymd 2025 1 10) (ymd 2025 1 10)];
            [mkRow "y" "A" (ymd 2025 1 13) (ymd 2025 1 13)]]
           0 [mkRow "x" "A" (ymd 2025 1 10) (ymd 2025 1 10)]
           [mkRow "y" "A" (ymd 2025 1 13) (ymd 2025 1 13)]
           [mkTask 1 "A" "y"] (ymd 2025 1 10)).
  - vm_compute. reflexivity.
  - reflexivity.
  - reflexivity.
  - reflexivity.
  - repeat constructor.
  - reflexivity.
  - exists (ymd 2025 1 13). split; [vm_compute; split; [reflexivity|discriminate]|].
    split; [right; vm_compute; reflexivity|]. simpl. apply not_elem_of_empty.
  - apply elem_of_cons. by left.
  - apply elem_of_cons. by left.
Defined.

(** ** Further properties of the workday estimator *)

Lemma estimate_workdays_count start end_ non_workdays :
  estimate_workdays start end_ non_workdays
  = count_from (counted non_workdays) start (end_ - start + 1).
Proof. apply estimate_workdays_filter. Qed.

(** X13. Estimates add up over adjacent ranges: the workdays of
    [[start, end_]] are those of [[start, mid]] and those of
    [[mid + 1, end_]]. *)
Theorem estimate_workdays_split start mid end_ non_workdays :
  start ≤ mid + 1 → mid ≤ end_ →
  estimate_workdays start end_ non_workdays
  = (estimate_workdays start mid non_workdays
     + estimate_workdays (mid + 1) end_ non_workdays)%nat.
Proof.
  intros H1 H2. rewrite !estimate_workdays_count.
  replace (end_ - start + 1) with ((mid - start + 1) + (end_ - (mid + 1) + 1)) by lia.
  rewrite count_from_split by lia. do 2 f_equal. lia.
Qed.

Lemma estimate_workdays_split_witness :
  estimate_workdays (ymd 2025 1 6) (ymd 2025 1 31) (Some [ymd 2025 1 20])
  = (estimate_workdays (ymd 2025 1 6) (ymd 2025 1 18) (Some [ymd 2025 1 20])
     + estimate_workdays (ymd 2025 1 18 + 1) (ymd 2025 1 31) (Some [ymd 2025 1 20]))%nat.
Proof.
  apply estimate_workdays_split; vm_compute; discriminate.
Defined.

Lemma counted_none_week a : count_from (counted None) a 7 = 5%nat.
Proof.
  unfold count_from.
  assert (Hdec : ∀ d, counted None d ↔ (d + 6) mod 7 < 5).
  { intros d. unfold counted, weekday. simpl. split; [by intros [? _]|].
    intros Hd. split; [done|apply not_elem_of_empty]. }
  rewrite (list_filter_iff _ (λ d, (d + 6) mod 7 < 5)) by done.
  assert (Hseq : seqZ a 7 = [a; a + 1; a + 2; a + 3; a + 4; a + 5; a + 6]).
  { apply list_eq. intros i.
    destruct (decide (i < 7)%nat) as [Hi|Hi].
    - rewrite lookup_seqZ_lt by lia.
      do 7 (destruct i as [|i]; [simpl; f_equal; lia|]). lia.
    - rewrite lookup_seqZ_ge by lia. symmetry. apply lookup_ge_None_2. simpl. lia. }
  rewrite Hseq.
  repeat (rewrite filter_cons;
          destruct (decide (_ mod 7 < 5)) as [?H|?H]).
  all: rewrite ?filter_nil; simpl; try reflexivity.
  all: exfalso; Z.div_mod_to_equations; lia.
Qed.

(** X14. With nothing excluded, any run of [k] whole weeks counts [5 * k]
    workdays, whatever day it starts on. *)
Theorem estimate_workdays_whole_weeks start (k : nat) :
  estimate_workdays start (start + 7 * Z.of_nat k - 1) None = (5 * k)%nat.
Proof.
  rewrite estimate_workdays_count.
  replace (start + 7 * Z.of_nat k - 1 - start + 1) with (Z.of_nat k * 7) by lia.
  revert start. induction k as [|k IH]; intros start; [done|].
  replace (Z.of_nat (S k) * 7) with (7 + Z.of_nat k * 7) by lia.
  rewrite count_from_split by lia. rewrite counted_none_week, IH. lia.
Qed.

(** Row [n] of a loop with positive durations spans exactly [duration]
    elements of the filtered run it reads. *)
Lemma placed_span_count a m P `{!∀ d, Decision (P d)} current_idx tl out
    (n : nat) t r :
  placed (filter P (seqZ a m)) current_idx tl out →
  positive_durations tl → 0 ≤ current_idx →
  tl !! n = Some t → out !! n = Some r →
  Z.of_nat (count_from P (Start r) (End_ r - Start r + 1)) = duration t.
Proof.
  intros Hp Hpos Hidx Ht Hr.
  destruct (placed_positions _ _ _ _ Hp Hpos Hidx n t r Ht Hr)
    as (i & j & Hij & Hj & Hi & Hj' & _).
  rewrite (filtered_run_span P _ _ _ _ _ _ Hi Hj' Hij). lia.
Qed.

(** X15. The estimator agrees with the scheduler: for a timeline with
    positive durations scheduled under the weekend rule, the estimate of
    the workdays between the Start and the End of a row, with the same
    non-working days, is the duration of the row's task. *)
Theorem estimate_workdays_of_row timeline init_date non_workdays rows (n : nat) t r :
  positive_durations timeline →
  build_gantt_df timeline init_date non_workdays true = Ok rows →
  timeline !! n = Some t →
  rows !! n = Some r →
  Z.of_nat (estimate_workdays (Start r) (End_ r) (Some non_workdays)) = duration t.
Proof.
  intros Hpos Hrows Ht Hr. apply build_gantt_df_placed in Hrows.
  unfold workdays_from, date_range in Hrows.
  rewrite estimate_workdays_count.
  rewrite <- (placed_span_count _ _ _ _ _ _ n t r Hrows Hpos ltac:(done) Ht Hr).
  unfold count_from. do 2 f_equal. apply list_filter_iff.
  intros d. unfold counted, is_workday. simpl. split.
  - intros [? ?]. split; [by right|done].
  - intros [[?|?] ?]; [done|]. done.
Qed.

Lemma estimate_workdays_of_row_witness :
  Z.of_nat (estimate_workdays
              (Start (mkRow "y" "A" (ymd 2025 1 9) (ymd 2025 1 13)))
              (End_ (mkRow "y" "A" (ymd 2025 1 9) (ymd 2025 1 13)))
              (Some [ymd 2025 1 8]))
  = duration (mkTask 3 "A" "y").
Proof.
  apply (estimate_workdays_of_row [mkTask 2 "A" "x"; mkTask 3 "A" "y"]
           (ymd 2025 1 6) [ymd 2025 1 8]
           [mkRow "x" "A" (ymd 2025 1 6) (ymd 2025 1 7);
            mkRow "y" "A" (ymd 2025 1 9) (ymd 2025 1 13)] 1).
  - repeat constructor.
  - vm_compute. reflexivity.
  - reflexivity.
  - reflexivity.
Defined.

Lemma filter_ne_length (l : list Z) d :
  NoDup l →
  (length (filter (λ x, x ≠ d) l) + (if decide (d ∈ l) then 1 else 0))%nat
  = length l.
Proof.
  induction 1 as [|x l Hx _ IH]; [done|].
  rewrite filter_cons. destruct (decide (x ≠ d)) as [Hne|Heq].
  - simpl. destruct (decide (d ∈ x :: l)) as [Hin|Hnin].
    + apply elem_of_cons in Hin as [->|Hin]; [done|].
      rewrite decide_True in IH by done. lia.
    + rewrite decide_False in IH; [lia|].
      intros Hin. apply Hnin. by right.
  - assert (x = d) as -> by (destruct (decide (x = d)); [done|by exfalso]).
    rewrite decide_True by by left.
    rewrite decide_False in IH by done. simpl. lia.
Qed.

(** X16. One more non-working day lowers the estimate by one when it is a
    Monday-to-Friday date of the range that was not excluded yet, and leaves
    it unchanged otherwise. *)
Theorem estimate_workdays_exclude_one start end_ d non_workdays :
  (estimate_workdays start end_ (Some (d :: non_workdays))
   + (if decide ((start ≤ d ≤ end_)%Z ∧ (weekday d < 5)%Z ∧ d ∉ non_workdays)
      then 1 else 0))%nat
  = estimate_workdays start end_ (Some non_workdays).
Proof.
  rewrite !estimate_workdays_filter.
  set (l := filter (counted (Some non_workdays)) (date_range_to start end_)).
  assert (filter (counted (Some (d :: non_workdays))) (date_range_to start end_)
          = filter (λ x, x ≠ d) l) as ->.
  { unfold l. rewrite list_filter_filter. apply list_filter_iff.
    intros x. unfold counted. simpl.
    rewrite not_elem_of_union, not_elem_of_singleton. tauto. }
  rewrite <- (filter_ne_length l d) by apply NoDup_filter, NoDup_seqZ.
  f_equal. apply decide_ext. unfold l.
  rewrite list_elem_of_filter. unfold date_range_to, counted. simpl.
  rewrite elem_of_seqZ, elem_of_list_to_set. split.
  - intros (? & ? & ?). split; [done|lia].
  - intros ((? & ?) & ?). split; [lia|done].
Qed.

(** ** Holidays of an interval *)

#[local] Instance by_date_transitive : Transitive by_date.
Proof. intros a b c. unfold by_date. lia. Qed.

#[local] Instance by_date_total : Total by_date.
Proof. intros a b. unfold by_date. lia. Qed.

Lemma by_date_strict (l : list (Z * string)) :
  StronglySorted by_date l → NoDup l.*1 →
  StronglySorted (λ a b, a.1 < b.1) l.
Proof.
  induction 1 as [|a l _ IH Hall]; intros Hnd; [constructor|].
  rewrite fmap_cons in Hnd. apply NoDup_cons in Hnd as [Hnotin Hnd].
  constructor; [by apply IH|].
  rewrite Forall_forall in Hall |- *. intros b Hb.
  specialize (Hall b Hb). unfold by_date in Hall.
  destruct (decide (a.1 = b.1)) as [Heq|Hne]; [|lia].
  exfalso. apply Hnotin. rewrite Heq. by apply list_elem_of_fmap_2.
Qed.

(** X17. The rows [get_holidays] returns are in strictly increasing order of
    date, and they are exactly the holidays the package lists, for the years
    from the start year to the end year, that fall in the interval; when the
    end precedes the start there is none. *)
Theorem get_holidays_rows country_holidays country_code start_date end_date subdiv :
  let rows :=
    get_holidays country_holidays country_code start_date end_date subdiv in
  let holiday_list :=
    country_holidays country_code subdiv
      (seqZ (year start_date) (year end_date + 1 - year start_date)) in
  StronglySorted (λ a b, a.1 < b.1) rows ∧
  (∀ d name, (d, name) ∈ rows ↔
     holiday_list !! d = Some name ∧
     toordinal start_date ≤ d ≤ toordinal end_date) ∧
  (toordinal end_date < toordinal start_date → rows = []).
Proof.
  intros rows holiday_list.
  assert (Hmem : ∀ d name, (d, name) ∈ rows ↔
     holiday_list !! d = Some name ∧
     toordinal start_date ≤ d ≤ toordinal end_date).
  { intros d name. unfold rows, get_holidays.
    rewrite merge_sort_Permutation, elem_of_map_to_list.
    fold holiday_list. by rewrite map_lookup_filter_Some. }
  split; [|split; [done|]].
  - apply by_date_strict; [apply StronglySorted_merge_sort; apply _|].
    unfold rows, get_holidays. rewrite merge_sort_Permutation.
    apply NoDup_fst_map_to_list.
  - intros Hrev. destruct rows as [|[d name] rest] eqn:Hrows; [done|].
    exfalso. destruct (Hmem d name) as [Hin _].
    destruct Hin as [_ Hd]; [by left|]. lia.
Qed.

(** ** Labels of the chart *)

Lemma py_slice_to_nonneg {A} (l : list A) (stop : Z) :
  0 ≤ stop → py_slice_to l stop = take (Z.to_nat stop) l.
Proof.
  intros Hs. unfold py_slice_to.
  destruct (Z.ltb_spec stop 0) as [|_]; [lia|].
  destruct (decide (stop ≤ Z.of_nat (length l))).
  - by rewrite Z.min_l by done.
  - rewrite Z.min_r by lia. rewrite Nat2Z.id.
    rewrite !take_ge by lia. done.
Qed.

Lemma py_slice_to_length {A} (l : list A) (stop : Z) :
  Z.of_nat (length (py_slice_to l stop))
  = if stop <? 0 then Z.max 0 (stop + Z.of_nat (length l))
    else Z.min stop (Z.of_nat (length l)).
Proof.
  unfold py_slice_to. rewrite length_take.
  destruct (Z.ltb_spec stop 0); lia.
Qed.

(** X18. A limit of at least one character is kept: a label no longer than
    [max_label_length] is left as it is, and a longer one is cut to its
    first [max_label_length - 1] characters followed by an ellipsis, which
    makes exactly [max_label_length] characters. *)
Theorem task_label_within_limit group task m include_group_name :
  1 ≤ m →
  let full := task_label group task None include_group_name in
  let label := task_label group task (Some m) include_group_name in
  (Z.of_nat (length full) ≤ m → label = full) ∧
  (m < Z.of_nat (length full) →
     label = take (Z.to_nat (m - 1)) full ++ [8230] ∧
     Z.of_nat (length label) = m).
Proof.
  intros Hm full label. unfold label, full, task_label.
  set (l := if include_group_name then _ else _).
  destruct (Z.ltb_spec m (Z.of_nat (length l))) as [Hlt|Hge].
  - split; [lia|]. intros _. rewrite py_slice_to_nonneg by lia.
    split; [done|]. rewrite length_app, length_take. simpl. lia.
  - split; [done|lia].
Qed.

Lemma task_label_within_limit_witness :
  (Z.of_nat (length (task_label (codes "Dev") (codes "Implement core") None true))
     ≤ 10 →
   task_label (codes "Dev") (codes "Implement core") (Some 10) true
   = task_label (codes "Dev") (codes "Implement core") None true) ∧
  (10 < Z.of_nat (length (task_label (codes "Dev") (codes "Implement core") None true)) →
   task_label (codes "Dev") (codes "Implement core") (Some 10) true
   = take (Z.to_nat (10 - 1))
       (task_label (codes "Dev") (codes "Implement core") None true) ++ [8230] ∧
   Z.of_nat (length (task_label (codes "Dev") (codes "Implement core") (Some 10) true))
   = 10).
Proof.
  apply (task_label_within_limit (codes "Dev") (codes "Implement core") 10 true).
  lia.
Defined.

(** X19. A limit of zero or less is not kept: whenever the label is longer
    than such a [max_label_length], the result still ends with the ellipsis
    and has [max 1 (length + max_label_length)] characters; with a limit of
    zero a non-empty label keeps its length. *)
Theorem task_label_nonpositive_limit group task m include_group_name :
  m ≤ 0 →
  let full := task_label group task None include_group_name in
  let label := task_label group task (Some m) include_group_name in
  m < Z.of_nat (length full) →
  last label = Some 8230 ∧
  Z.of_nat (length label) = Z.max 1 (Z.of_nat (length full) + m).
Proof.
  intros Hm full label. unfold label, full, task_label.
  set (l := if include_group_name then _ else _). intros Hlt.
  destruct (Z.ltb_spec m (Z.of_nat (length l))) as [_|Hge]; [|lia].
  split; [by rewrite last_snoc|].
  rewrite length_app, Nat2Z.inj_add, py_slice_to_length. simpl.
  destruct (Z.ltb_spec (m - 1) 0); lia.
Qed.

Lemma task_label_nonpositive_limit_witness :
  last (task_label (codes "Dev") (codes "Deploy") (Some 0) false) = Some 8230 ∧
  Z.of_nat (length (task_label (codes "Dev") (codes "Deploy") (Some 0) false))
  = Z.max 1 (Z.of_nat (length (task_label (codes "Dev") (codes "Deploy") None false)) + 0).
Proof.
  apply (task_label_nonpositive_limit (codes "Dev") (codes "Deploy") 0 false).
  - lia.
  - vm_compute. reflexivity.
Defined.

Lemma weekday_cases d :
  weekday d = 0 ∨ weekday d = 1 ∨ weekday d = 2 ∨ weekday d = 3 ∨
  weekday d = 4 ∨ weekday d = 5 ∨ weekday d = 6.
Proof. unfold weekday. Z.div_mod_to_equations. lia. Qed.

Lemma py_slice_to_head2 (a b : Z) (l : list Z) (n : Z) :
  2 ≤ n → take 2 (py_slice_to (a :: b :: l) n) = [a; b].
Proof.
  intros Hn. rewrite py_slice_to_nonneg by lia.
  destruct (Z.to_nat n) as [|[|k]] eqn:Hk; [lia|lia|]. done.
Qed.

Lemma day_name_head2 d : ∃ a b l, day_name d = a :: b :: l.
Proof.
  unfold day_name.
  destruct (weekday_cases d) as [->|[->|[->|[->|[->|[->| ->]]]]]];
    vm_compute; eauto.
Qed.

Lemma day_name_take2 d1 d2 :
  take 2 (day_name d1) = take 2 (day_name d2) → weekday d1 = weekday d2.
Proof.
  unfold day_name.
  destruct (weekday_cases d1) as [->|[->|[->|[->|[->|[->| ->]]]]]];
  destruct (weekday_cases d2) as [->|[->|[->|[->|[->|[->| ->]]]]]];
  vm_compute; congruence.
Qed.

(** X20. Weekday labels of full length ([-1]) or of at least two characters
    tell the weekdays apart: two days get the same label exactly when they
    fall on the same day of the week. *)
Theorem format_weekday_distinct weekday_label_length d1 d2 :
  weekday_label_length = -1 ∨ 2 ≤ weekday_label_length →
  format_weekday weekday_label_length d1 = format_weekday weekday_label_length d2
  ↔ weekday d1 = weekday d2.
Proof.
  intros Hn. split.
  - intros Heq. apply day_name_take2. unfold format_weekday in Heq.
    cbv zeta in Heq.
    destruct (Z.eqb_spec weekday_label_length (-1)) as [_|Hne];
      [by rewrite Heq|].
    destruct Hn as [|Hn]; [done|].
    destruct (day_name_head2 d1) as (a1 & b1 & l1 & H1).
    destruct (day_name_head2 d2) as (a2 & b2 & l2 & H2).
    apply (f_equal (take 2)) in Heq.
    rewrite H1, H2 in Heq |- *.
    by rewrite !py_slice_to_head2 in Heq by done.
  - intros Hw. unfold format_weekday, day_name. by rewrite Hw.
Qed.

Lemma format_weekday_distinct_witness :
  format_weekday 3 (ymd 2025 1 6) = format_weekday 3 (ymd 2025 1 13)
  ↔ weekday (ymd 2025 1 6) = weekday (ymd 2025 1 13).
Proof.
  apply format_weekday_distinct. right. lia.
Defined.

(** ** Colours and bars of the chart *)

Lemma unique_from_elem seen l g :
  g ∈ unique_from seen l ↔ g ∈ l ∧ g ∉ seen.
Proof.
  revert seen. induction l as [|x l IH]; intros seen; simpl.
  - split; [by intros ?%elem_of_nil|by intros [?%elem_of_nil _]].
  - destruct (decide (x ∈ seen)) as [Hx|Hx].
    + rewrite IH, elem_of_cons. split; [tauto|].
      intros [[->|?] ?]; [done|tauto].
    + rewrite !elem_of_cons, IH, not_elem_of_cons. split.
      * intros [->|(? & ? & ?)]; tauto.
      * intros [[->|?] ?]; [by left|].
        destruct (decide (g = x)) as [->|]; [by left|right; tauto].
Qed.

Lemma unique_from_NoDup seen l : NoDup (unique_from seen l).
Proof.
  revert seen. induction l as [|x l IH]; intros seen; simpl; [constructor|].
  destruct (decide (x ∈ seen)); [done|].
  constructor; [|done]. rewrite unique_from_elem, not_elem_of_cons. tauto.
Qed.

Lemma default_colors_lookup {color : Type} (f : nat → color) (l : list string) :
  NoDup l →
  ∀ (i : nat) g, l !! i = Some g →
  foldl (λ (m : gmap string color) ig, <[ig.2 := f ig.1]> m) ∅ (imap pair l) !! g
  = Some (f i).
Proof.
  induction l as [|x l IH] using rev_ind; intros Hnd i g Hi; [done|].
  apply NoDup_app in Hnd as (Hnd & Hx & _).
  rewrite imap_app, foldl_app. simpl. rewrite Nat.add_0_r.
  destruct (decide (g = x)) as [->|Hne].
  - rewrite lookup_insert_eq. f_equal. f_equal.
    destruct (decide (i < length l)%nat) as [Hlt|Hge].
    + rewrite lookup_app_l in Hi by done.
      exfalso. apply (Hx x); [by eapply list_elem_of_lookup_2|by left].
    + apply lookup_lt_Some in Hi. rewrite length_app in Hi. simpl in Hi. lia.
  - rewrite lookup_insert_ne by done. apply IH; [done|].
    destruct (decide (i < length l)%nat) as [Hlt|Hge].
    + by rewrite lookup_app_l in Hi.
    + rewrite lookup_app_r in Hi by lia.
      apply list_lookup_singleton_Some in Hi as [_ ?]. congruence.
Qed.

Lemma bar_colors_loop_ok {color : Type} (gc : gmap string color) rows :
  (∀ r, r ∈ rows → is_Some (gc !! Group r)) →
  ∃ cs, bar_colors_loop gc rows = Ok cs ∧
        Forall2 (λ r c, gc !! Group r = Some c) rows cs.
Proof.
  induction rows as [|r rows IH]; intros Hall; simpl.
  - exists []. split; [done|constructor].
  - destruct (Hall r) as [c Hc]; [by left|]. rewrite Hc.
    destruct IH as (cs & -> & Hcs); [intros r' Hr'; apply Hall; by right|].
    exists (c :: cs). split; [done|by constructor].
Qed.

Lemma bar_colors_loop_raise {color : Type} (gc : gmap string color) rows :
  (∃ e, bar_colors_loop gc rows = Raise e) ↔
  ∃ r, r ∈ rows ∧ gc !! Group r = None.
Proof.
  induction rows as [|r rows IH]; simpl.
  - split; [by intros [e ?]|by intros (r & ?%elem_of_nil & _)].
  - destruct (gc !! Group r) as [c|] eqn:Hc.
    + unfold mbind, result_bind.
      destruct (bar_colors_loop gc rows) as [cs|e] eqn:Hloop.
      * split; [by intros [e ?]|]. intros (r' & Hr' & Hnone).
        apply elem_of_cons in Hr' as [->|Hr']; [congruence|].
        destruct IH as [_ IH]. destruct IH as [e He]; [eauto|done].
      * split; [|eauto]. intros _. destruct IH as [IH _].
        destruct IH as (r' & Hr' & Hnone); [eauto|].
        exists r'. split; [by right|done].
    + split; [|eauto]. intros _. exists r. split; [by left|done].
Qed.

Lemma bar_colors_loop_error {color : Type} (gc : gmap string color) rows e :
  bar_colors_loop gc rows = Raise e → e = KeyError.
Proof.
  induction rows as [|r rows IH]; simpl; [done|].
  destruct (gc !! Group r); [|congruence].
  unfold mbind, result_bind. destruct (bar_colors_loop gc rows); [done|].
  intros [= <-]. by apply IH.
Qed.

Lemma group_colors_default {color : Type} (cmap : Z → color) color_map df :
  color_map = None ∨ color_map = Some ∅ →
  ∀ r, r ∈ df →
  ∃ i : nat, unique (Group <$> df) !! i = Some (Group r) ∧
    group_colors cmap color_map df !! Group r = Some (cmap (Z.of_nat i mod 10)).
Proof.
  intros Hmap r Hr.
  assert (Group r ∈ unique (Group <$> df)) as Hin.
  { apply unique_from_elem. split; [by apply list_elem_of_fmap_2|].
    by intros ?%elem_of_nil. }
  apply list_elem_of_lookup in Hin as [i Hi]. exists i. split; [done|].
  assert (group_colors cmap color_map df
          = foldl (λ (m : gmap string color) ig,
                     <[ig.2 := cmap (Z.of_nat ig.1 mod 10)]> m) ∅
              (imap pair (unique (Group <$> df)))) as ->.
  { unfold group_colors. destruct Hmap as [->| ->]; [done|].
    by rewrite decide_True. }
  by apply (default_colors_lookup (λ i, cmap (Z.of_nat i mod 10)));
    [apply unique_from_NoDup|].
Qed.

(** X21. With no colour map, or an empty one, every bar gets a colour and
    none raises: a row whose group is the [i]-th to appear in the frame is
    drawn with colour [i % 10] of the palette. *)
Theorem bar_colors_default {color : Type} (cmap : Z → color) color_map df :
  color_map = None ∨ color_map = Some ∅ →
  ∃ cs, bar_colors cmap color_map df = Ok cs ∧
    Forall2 (λ r c, ∃ i : nat,
               unique (Group <$> df) !! i = Some (Group r) ∧
               c = cmap (Z.of_nat i mod 10))
      df cs.
Proof.
  intros Hmap. unfold bar_colors.
  destruct (bar_colors_loop_ok (group_colors cmap color_map df) df)
    as (cs & Hcs & Hall).
  { intros r Hr.
    destruct (group_colors_default cmap color_map df Hmap r Hr) as (i & _ & ->).
    eauto. }
  exists cs. split; [done|].
  apply Forall2_same_length_lookup. split; [by eapply Forall2_length|].
  intros k r c Hr Hc.
  destruct (group_colors_default cmap color_map df Hmap r)
    as (i & Hi & Hlook); [by eapply list_elem_of_lookup_2|].
  exists i. split; [done|].
  pose proof (Forall2_lookup_lr _ _ _ _ _ _ Hall Hr Hc) as Hrc. simpl in Hrc.
  congruence.
Qed.

Lemma bar_colors_default_witness :
  ∃ cs,
    bar_colors (λ i, i) None
      [mkRow "x" "A" 1 2; mkRow "y" "B" 3 4; mkRow "z" "A" 5 6] = Ok cs ∧
    Forall2 (λ r c, ∃ i : nat,
               unique (Group <$> [mkRow "x" "A" 1 2; mkRow "y" "B" 3 4;
                                  mkRow "z" "A" 5 6]) !! i = Some (Group r) ∧
               c = Z.of_nat i mod 10)
      [mkRow "x" "A" 1 2; mkRow "y" "B" 3 4; mkRow "z" "A" 5 6] cs.
Proof.
  apply (bar_colors_default (λ i, i) None). by left.
Defined.

(** X22. With a colour map that is not empty, drawing the bars raises, with
    a [KeyError], exactly when some row's group is not a key of the map. *)
Theorem bar_colors_custom {color : Type} (cmap : Z → color)
    (m : gmap string color) df :
  m ≠ ∅ →
  bar_colors cmap (Some m) df = Raise KeyError ↔
  ∃ r, r ∈ df ∧ m !! Group r = None.
Proof.
  intros Hne. unfold bar_colors, group_colors. rewrite decide_False by done.
  rewrite <- bar_colors_loop_raise. split; [eauto|].
  intros [e He]. by rewrite He, (bar_colors_loop_error _ _ _ He).
Qed.

Lemma bar_colors_custom_witness :
  bar_colors (λ i, i) (Some {[ "A"%string := 7 ]})
    [mkRow "x" "A" 1 2; mkRow "y" "B" 3 4] = Raise KeyError.
Proof.
  apply (bar_colors_custom (λ i, i) {[ "A"%string := 7 ]}
           [mkRow "x" "A" 1 2; mkRow "y" "B" 3 4]).
  - apply insert_non_empty.
  - exists (mkRow "y" "B" 3 4). split.
    + apply elem_of_cons. right. apply elem_of_cons. by left.
    + vm_compute. reflexivity.
Defined.

(** X23. With no colour map, at most ten groups and a palette whose first
    ten colours differ, two bars have the same colour only when their rows
    have the same group. *)
Theorem bar_colors_distinct {color : Type} (cmap : Z → color) color_map df cs
    (k k' : nat) r r' c :
  color_map = None ∨ color_map = Some ∅ →
  (length (unique (Group <$> df)) ≤ 10)%nat →
  (∀ i j, 0 ≤ i < 10 → 0 ≤ j < 10 → cmap i = cmap j → i = j) →
  bar_colors cmap color_map df = Ok cs →
  df !! k = Some r → df !! k' = Some r' →
  cs !! k = Some c → cs !! k' = Some c →
  Group r = Group r'.
Proof.
  intros Hmap Hten Hinj Hcs Hr Hr' Hc Hc'. unfold bar_colors in Hcs.
  destruct (bar_colors_loop_ok (group_colors cmap color_map df) df)
    as (cs' & Hcs' & Hall).
  { intros r0 Hr0.
    destruct (group_colors_default cmap color_map df Hmap r0 Hr0) as (i & _ & ->).
    eauto. }
  assert (cs' = cs) as -> by congruence.
  pose proof (Forall2_lookup_lr _ _ _ _ _ _ Hall Hr Hc) as Hrc.
  pose proof (Forall2_lookup_lr _ _ _ _ _ _ Hall Hr' Hc') as Hrc'.
  simpl in Hrc, Hrc'.
  destruct (group_colors_default cmap color_map df Hmap r)
    as (i & Hi & Hlook); [by eapply list_elem_of_lookup_2|].
  destruct (group_colors_default cmap color_map df Hmap r')
    as (i' & Hi' & Hlook'); [by eapply list_elem_of_lookup_2|].
  pose proof (lookup_lt_Some _ _ _ Hi). pose proof (lookup_lt_Some _ _ _ Hi').
  assert (Z.of_nat i mod 10 = Z.of_nat i' mod 10) as Heq.
  { apply Hinj; [apply Z.mod_pos_bound; lia|apply Z.mod_pos_bound; lia|congruence]. }
  rewrite !Z.mod_small in Heq by lia.
  assert (i = i') as -> by lia. congruence.
Qed.

Lemma bar_colors_distinct_witness :
  Group (mkRow "x" "A" 1 2) = Group (mkRow "z" "A" 5 6).
Proof.
  apply (bar_colors_distinct (λ i, i) None
           [mkRow "x" "A" 1 2; mkRow "y" "B" 3 4; mkRow "z" "A" 5 6]
           [0; 1; 0] 0 2 _ _ 0).
  - by left.
  - vm_compute. lia.
  - intros i j _ _ Hij. exact Hij.
  - vm_compute. reflexivity.
  - reflexivity.
  - reflexivity.
  - reflexivity.
  - reflexivity.
Defined.

(** X24. The bar of a scheduled row accounts for every day of its span: for
    a timeline with positive durations scheduled under the weekend rule,
    the width of the bar is the task's duration, plus the weekend days that
    get the overlay, plus the listed non-working days of the span that fall
    on Monday to Friday. *)
Theorem bar_width_of_row timeline init_date non_workdays rows (n : nat) t r :
  positive_durations timeline →
  build_gantt_df timeline init_date non_workdays true = Ok rows →
  timeline !! n = Some t →
  rows !! n = Some r →
  bar_width r
  = duration t + Z.of_nat (length (weekend_slices r))
    + Z.of_nat (length (filter (λ d, weekday d < 5 ∧ d ∈ non_workdays)
                          (date_range_to (Start r) (End_ r)))).
Proof.
  intros Hpos Hrows Ht Hr. apply build_gantt_df_placed in Hrows.
  unfold workdays_from, date_range in Hrows.
  destruct (placed_ordered _ _ _ _ _ _ Hrows Hpos ltac:(done)) as [Hspan _].
  specialize (Hspan n r Hr).
  pose proof (placed_span_count _ _ _ _ _ _ n t r Hrows Hpos ltac:(done) Ht Hr)
    as Hcount.
  unfold bar_width, weekend_slices, count_from in *.
  unfold date_range_to.
  set (L := seqZ (Start r) (End_ r - Start r + 1)) in *.
  assert (Z.of_nat (length L) = End_ r - Start r + 1) as <-.
  { unfold L. rewrite length_seqZ. lia. }
  pose proof (filter_app_complement (λ d, 5 ≤ weekday d) L) as Hweek.
  apply Permutation_length in Hweek. rewrite length_app in Hweek.
  rewrite (list_filter_iff (λ d, ¬ (5 ≤ weekday d)) (λ d, weekday d < 5)) in Hweek
    by (intros d; lia).
  pose proof (filter_app_complement (λ d, d ∉ non_workdays)
                (filter (λ d, weekday d < 5) L)) as Hhol.
  apply Permutation_length in Hhol. rewrite length_app in Hhol.
  rewrite !list_filter_filter in Hhol.
  rewrite (list_filter_iff (λ d, (d ∉ non_workdays) ∧ weekday d < 5)
             (is_workday true (list_to_set non_workdays))) in Hhol.
  2:{ intros d. unfold is_workday. rewrite elem_of_list_to_set.
      split; [intros [? ?]; split; [by right|done]|].
      intros [[?|?] ?]; [done|]. done. }
  rewrite (list_filter_iff (λ d, ¬ (d ∉ non_workdays) ∧ weekday d < 5)
             (λ d, weekday d < 5 ∧ d ∈ non_workdays)) in Hhol.
  2:{ intros d. destruct (decide (d ∈ non_workdays)); tauto. }
  lia.
Qed.

Lemma bar_width_of_row_witness :
  bar_width (mkRow "y" "A" (ymd 2025 1 7) (ymd 2025 1 13))
  = duration (mkTask 3 "A" "y")
    + Z.of_nat (length (weekend_slices (mkRow "y" "A" (ymd 2025 1 7) (ymd 2025 1 13))))
    + Z.of_nat (length (filter (λ d, weekday d < 5 ∧ d ∈ [ymd 2025 1 8; ymd 2025 1 9])
                          (date_range_to
                             (Start (mkRow "y" "A" (ymd 2025 1 7) (ymd 2025 1 13)))
                             (End_ (mkRow "y" "A" (ymd 2025 1 7) (ymd 2025 1 13)))))).
Proof.
  apply (bar_width_of_row [mkTask 1 "A" "x"; mkTask 3 "A" "y"] (ymd 2025 1 6)
           [ymd 2025 1 8; ymd 2025 1 9]
           [mkRow "x" "A" (ymd 2025 1 6) (ymd 2025 1 6);
            mkRow "y" "A" (ymd 2025 1 7) (ymd 2025 1 13)] 1).
  - repeat constructor.
  - vm_compute. reflexivity.
  - reflexivity.
  - reflexivity.
Defined.
